(** * DocForge: document permissions, versioning and mention auto-sharing

    A shallow embedding of the document model
    ([server/models/Document.js]) and of the routes of the router mounted
    at [/api/documents] that write documents (create, update, delete, add
    and remove collaborator), with the properties of the permission
    evaluator, the collaborator manager, the version recorder and the
    lifecycle controller.

    Conventions.
    - An ObjectId is modelled by its [toString()] form, a [string]: every
      comparison of ids in the source goes through [toString()] (or through
      the Mongoose array's [includes], which compares ObjectIds by value).
    - A [Date] is a [nat]; each request reads the clock once ([now]).
    - JS arrays are lists, [push] appends at the end.
    - A JavaScript string is a [string], the bytes of its UTF-8 form.
    - The documents collection is a finite map from [_id] to the stored
      document.
    - A route parameter [req.params.id] is the string of the URL; what
      Mongoose makes of it in [findById] (an ObjectId, or a [CastError]),
      the length that the [isLength] validator measures and the length
      that [maxlength] of the schema measures belong to the libraries and
      are parameters of the routes. *)

From Stdlib Require Import Ascii.
From stdpp Require Import base strings list gmap.

(** ** Enumerations of the schemas *)

(** [permissionSchema.permission]: enum ['view', 'edit', 'admin']. *)
Inductive Level := view | edit | admin.

(** [documentSchema.privacy]: enum ['public', 'private']. *)
Inductive Privacy := public | private.

(** [documentSchema.status]: enum ['draft', 'published', 'archived']. *)
Inductive Status := draft | published | archived.

(** [req.user.role] as set by the [protect] middleware. *)
Inductive Role := role_user | role_admin.

#[global] Instance Level_eq_dec : EqDecision Level.
Proof. solve_decision. Defined.
#[global] Instance Privacy_eq_dec : EqDecision Privacy.
Proof. solve_decision. Defined.
#[global] Instance Status_eq_dec : EqDecision Status.
Proof. solve_decision. Defined.
#[global] Instance Role_eq_dec : EqDecision Role.
Proof. solve_decision. Defined.

Abbreviation UserId := string (only parsing).
Abbreviation DocId := string (only parsing).
Abbreviation Date := nat (only parsing).

(** ** Sub-documents and the document *)

(** [permissionSchema] *)
Record Permission := mkPermission {
  perm_user : UserId;
  permission : Level;
  grantedBy : UserId;
  grantedAt : Date
}.

(** [versionSchema] *)
Record Version := mkVersion {
  ver_content : string;
  ver_title : string;
  versionNumber : nat;
  createdBy : UserId;
  createdAt : Date;
  changeDescription : string
}.

(** An element of [documentSchema.mentions]. *)
Record Mention := mkMention {
  mention_user : UserId;
  mentionedAt : Date
}.

(** [documentSchema]. [lastModifiedBy] is not required by the schema, so
    it may be unset. *)
Record Document := mkDocument {
  title : string;
  content : string;
  author : UserId;
  status : Status;
  privacy : Privacy;
  permissions : list Permission;
  versions : list Version;
  currentVersion : nat;
  tags : list string;
  mentions : list Mention;
  collaborators : list UserId;
  lastModifiedBy : option UserId;
  isDeleted : bool
}.

(** Field assignments ([this.f = v]). *)
Definition set_title (v : string) (d : Document) : Document :=
  mkDocument v (content d) (author d) (status d) (privacy d) (permissions d)
    (versions d) (currentVersion d) (tags d) (mentions d) (collaborators d)
    (lastModifiedBy d) (isDeleted d).
Definition set_content (v : string) (d : Document) : Document :=
  mkDocument (title d) v (author d) (status d) (privacy d) (permissions d)
    (versions d) (currentVersion d) (tags d) (mentions d) (collaborators d)
    (lastModifiedBy d) (isDeleted d).
Definition set_status (v : Status) (d : Document) : Document :=
  mkDocument (title d) (content d) (author d) v (privacy d) (permissions d)
    (versions d) (currentVersion d) (tags d) (mentions d) (collaborators d)
    (lastModifiedBy d) (isDeleted d).
Definition set_privacy (v : Privacy) (d : Document) : Document :=
  mkDocument (title d) (content d) (author d) (status d) v (permissions d)
    (versions d) (currentVersion d) (tags d) (mentions d) (collaborators d)
    (lastModifiedBy d) (isDeleted d).
Definition set_permissions (v : list Permission) (d : Document) : Document :=
  mkDocument (title d) (content d) (author d) (status d) (privacy d) v
    (versions d) (currentVersion d) (tags d) (mentions d) (collaborators d)
    (lastModifiedBy d) (isDeleted d).
Definition set_versions (v : list Version) (d : Document) : Document :=
  mkDocument (title d) (content d) (author d) (status d) (privacy d)
    (permissions d) v (currentVersion d) (tags d) (mentions d)
    (collaborators d) (lastModifiedBy d) (isDeleted d).
Definition set_currentVersion (v : nat) (d : Document) : Document :=
  mkDocument (title d) (content d) (author d) (status d) (privacy d)
    (permissions d) (versions d) v (tags d) (mentions d) (collaborators d)
    (lastModifiedBy d) (isDeleted d).
Definition set_tags (v : list string) (d : Document) : Document :=
  mkDocument (title d) (content d) (author d) (status d) (privacy d)
    (permissions d) (versions d) (currentVersion d) v (mentions d)
    (collaborators d) (lastModifiedBy d) (isDeleted d).
Definition set_mentions (v : list Mention) (d : Document) : Document :=
  mkDocument (title d) (content d) (author d) (status d) (privacy d)
    (permissions d) (versions d) (currentVersion d) (tags d) v
    (collaborators d) (lastModifiedBy d) (isDeleted d).
Definition set_collaborators (v : list UserId) (d : Document) : Document :=
  mkDocument (title d) (content d) (author d) (status d) (privacy d)
    (permissions d) (versions d) (currentVersion d) (tags d) (mentions d) v
    (lastModifiedBy d) (isDeleted d).
Definition set_lastModifiedBy (v : UserId) (d : Document) : Document :=
  mkDocument (title d) (content d) (author d) (status d) (privacy d)
    (permissions d) (versions d) (currentVersion d) (tags d) (mentions d)
    (collaborators d) (Some v) (isDeleted d).
Definition set_isDeleted (v : bool) (d : Document) : Document :=
  mkDocument (title d) (content d) (author d) (status d) (privacy d)
    (permissions d) (versions d) (currentVersion d) (tags d) (mentions d)
    (collaborators d) (lastModifiedBy d) v.

(** ** Methods of the document schema *)

(** [const permissionLevels = { view: 1, edit: 2, admin: 3 }] *)
Definition permissionLevels (l : Level) : nat :=
  match l with view => 1 | edit => 2 | admin => 3 end.

(** [this.permissions.find(p => p.user.toString() === userId.toString())]:
    the first matching entry, with its index. *)
Definition findPermission (userId : UserId) (ps : list Permission)
  : option (nat * Permission) :=
  list_find (λ p, perm_user p = userId) ps.

(** [documentSchema.methods.hasPermission], on a document whose
    references are ObjectIds ([author] and [permissions.user] not
    populated), as the routes that write documents load it. *)
Definition hasPermission (d : Document) (userId : UserId)
    (requiredPermission : Level) : bool :=
  if bool_decide (privacy d = public) && bool_decide (requiredPermission = view)
  then true
  else if bool_decide (author d = userId) then true
  else match findPermission userId (permissions d) with
       | None => false
       | Some (_, p) =>
           let requiredLevel := permissionLevels requiredPermission in
           let userLevel := permissionLevels (permission p) in
           requiredLevel <=? userLevel
       end.

(** [documentSchema.methods.addCollaborator]: the entry found is updated
    in place (it is the object held by the array), otherwise a new entry is
    pushed; then the id is pushed on [collaborators] unless included. *)
Definition addCollaborator (userId : UserId) (level : Level)
    (grantor : UserId) (now : Date) (d : Document) : Document :=
  let ps :=
    match findPermission userId (permissions d) with
    | Some (i, p) =>
        <[i := mkPermission (perm_user p) level grantor now]> (permissions d)
    | None => permissions d ++ [mkPermission userId level grantor now]
    end in
  let cs :=
    if decide (userId ∈ collaborators d) then collaborators d
    else collaborators d ++ [userId] in
  set_collaborators cs (set_permissions ps d).

(** [documentSchema.methods.removeCollaborator] *)
Definition removeCollaborator (userId : UserId) (d : Document) : Document :=
  set_collaborators (filter (λ c, c ≠ userId) (collaborators d))
    (set_permissions (filter (λ p, perm_user p ≠ userId) (permissions d)) d).

(** [documentSchema.methods.addMention] *)
Definition addMention (userId : UserId) (now : Date) (d : Document)
  : Document :=
  match list_find (λ m, mention_user m = userId) (mentions d) with
  | Some _ => d
  | None => set_mentions (mentions d ++ [mkMention userId now]) d
  end.

(** The user ids that hold a permission entry, in order. *)
Definition permissionUsers (d : Document) : list UserId :=
  perm_user <$> permissions d.

(** ** Mention extractor *)

(** [\w] of a JS regular expression without the unicode flag:
    [A-Za-z0-9_]. *)
Definition isWordChar (c : ascii) : bool :=
  let n := nat_of_ascii c in
  ((48 <=? n) && (n <=? 57)) || ((65 <=? n) && (n <=? 90))
  || ((97 <=? n) && (n <=? 122)) || (n =? 95).

(** A capture [(\w+)] needs at least one word character. *)
Definition emitToken (t : string) : list string :=
  if decide (t = EmptyString) then [] else [t].

(** Where a match of [/@(\w+)/] may start. *)
Definition startToken (c : ascii) : option string :=
  if Ascii.eqb c "@" then Some EmptyString else None.

(** The loop [while ((match = mentionRegex.exec(content)) !== null)] with
    [mentionRegex = /@(\w+)/g]: the successive leftmost matches, each
    capture greedy, the search resuming after the previous match.
    [cur] is the capture read so far since the last ["@"], if any. *)
Fixpoint scanMentions (cur : option string) (s : string) : list string :=
  match s with
  | EmptyString => from_option emitToken [] cur
  | String c s' =>
      match cur with
      | Some t =>
          if isWordChar c then scanMentions (Some (t +:+ String c EmptyString)) s'
          else emitToken t ++ scanMentions (startToken c) s'
      | None => scanMentions (startToken c) s'
      end
  end.

Definition mentionTokens (content : string) : list string :=
  scanMentions None content.

(** ** Mongoose change tracking

    Mongoose is a dependency, not code of this repository; what the
    pre-save hook observes of it is modelled here: [isModified(path)] for
    the paths ['title'] and ['content'] (the only paths the hook asks
    about). A path of a new document that was given a value is modified;
    on a document loaded from the store an assignment marks the path when
    the value differs from the current one; a successful [save] clears the
    marks. *)

Inductive Path := path_title | path_content.

Record Tracked := mkTracked {
  fields : Document;
  isNew : bool;
  modifiedTitle : bool;
  modifiedContent : bool
}.

Definition isModified (p : Path) (m : Tracked) : bool :=
  match p with
  | path_title => modifiedTitle m
  | path_content => modifiedContent m
  end.

(** [new Document({ title, content, ... })] *)
Definition construct (d : Document) : Tracked := mkTracked d true true true.

(** The result of [Document.findById]. *)
Definition hydrate (d : Document) : Tracked := mkTracked d false false false.

(** Assignments and method calls that touch neither title nor content. *)
Definition on_fields (f : Document → Document) (m : Tracked) : Tracked :=
  mkTracked (f (fields m)) (isNew m) (modifiedTitle m) (modifiedContent m).

(** [document.title = v] *)
Definition assign_title (v : string) (m : Tracked) : Tracked :=
  mkTracked (set_title v (fields m)) (isNew m)
    (isNew m || modifiedTitle m || negb (bool_decide (v = title (fields m))))
    (modifiedContent m).

(** [document.content = v] *)
Definition assign_content (v : string) (m : Tracked) : Tracked :=
  mkTracked (set_content v (fields m)) (isNew m) (modifiedTitle m)
    (isNew m || modifiedContent m
     || negb (bool_decide (v = content (fields m)))).

(** [documentSchema.pre('save', ...)] *)
Definition preSave (now : Date) (m : Tracked) : Tracked :=
  if isModified path_content m || isModified path_title m then
    let this := fields m in
    let newVersion :=
      mkVersion (content this) (title this) (currentVersion this + 1)
        (default (author this) (lastModifiedBy this)) now EmptyString in
    on_fields
      (λ d, set_currentVersion (versionNumber newVersion)
              (set_versions (versions d ++ [newVersion]) d)) m
  else m.

(** [document.save()]: the hook runs, the document is written, the marks
    are cleared. *)
Definition save (now : Date) (m : Tracked) : Tracked :=
  mkTracked (fields (preSave now m)) false false false.

(** ** Requests and responses *)

(** [req.user] *)
Record AuthUser := mkAuthUser {
  user_id : UserId;
  role : Role
}.

(** [req.body] of [POST /api/documents], after the sanitizers of the
    validation chain: the title is trimmed, so that the [trim] setters of
    the schema (on the title and on each tag, taken as trimmed too) store
    the values as they are. *)
Record CreateBody := mkCreateBody {
  cb_title : string;
  cb_content : string;
  cb_privacy : Privacy;
  cb_status : Status;
  cb_tags : option (list string)
}.

(** [req.body] of [PUT /api/documents/:id], after the sanitizers; every
    field is optional. *)
Record UpdateBody := mkUpdateBody {
  ub_title : option string;
  ub_content : option string;
  ub_privacy : option Privacy;
  ub_status : option Status;
  ub_tags : option (list string)
}.

(** The failure kinds: status 400, 404, 403 and 500. *)
Inductive Error := ValidationError | NotFound | Forbidden | InternalError.

Inductive Result (A : Type) :=
| Ok (a : A)
| Err (e : Error).
Arguments Ok {A} a.
Arguments Err {A} e.

#[global] Instance Error_eq_dec : EqDecision Error.
Proof. solve_decision. Defined.

(** JS truthiness of a string. *)
Definition truthy (s : string) : bool := negb (bool_decide (s = EmptyString)).

(** [if (v) ...] for a string field of the body. *)
Definition when_truthy (o : option string) (f : string → Tracked → Tracked)
    (m : Tracked) : Tracked :=
  match o with
  | Some v => if truthy v then f v m else m
  | None => m
  end.

(** [if (v) ...] for a field whose values are all truthy (an enum string,
    an array). *)
Definition when_present {A} (o : option A) (f : A → Tracked → Tracked)
    (m : Tracked) : Tracked :=
  match o with
  | Some v => f v m
  | None => m
  end.

(** [document.author.toString() !== req.user.id && req.user.role !== 'admin'] *)
Definition notOwnerNorAdmin (d : Document) (user : AuthUser) : bool :=
  bool_decide (author d ≠ user_id user) && bool_decide (role user ≠ role_admin).

(** ** Mention-driven sharing in the routes *)

(** [mentions.forEach(userId => { document.addMention(userId); })] *)
Definition recordMentions (mentioned : list UserId) (now : Date)
    (d : Document) : Document :=
  foldl (λ d userId, addMention userId now d) d mentioned.

(** [mentions.forEach(userId => {
       document.addCollaborator(userId, 'view', req.user.id); })] *)
Definition grantMentioned (mentioned : list UserId) (actor : UserId)
    (now : Date) (d : Document) : Document :=
  foldl (λ d userId, addCollaborator userId view actor now d) d mentioned.

(** [mentions.forEach(userId => {
       document.addMention(userId);
       document.addCollaborator(userId, 'view', req.user.id); })] *)
Definition shareWithMentioned (mentioned : list UserId) (actor : UserId)
    (now : Date) (d : Document) : Document :=
  foldl (λ d userId,
           addCollaborator userId view actor now (addMention userId now d))
    d mentioned.

(** ** The document routes *)

Section Routes.

(** What the routes take from Mongoose, express-validator and the
    JavaScript strings, which are outside this model.
    - [castObjectId s]: the ObjectId, in its [toString()] form, to which
      [Document.findById(s)] casts the string [s], or [None] when the cast
      throws [CastError].
    - [charCount s]: the length of [s] as [isLength] of the validation
      chain measures it, in characters.
    - [unitCount s]: [s.length], in UTF-16 code units, which [maxlength]
      of the schema measures. *)
Variable castObjectId : string → option DocId.
Variable charCount : string → nat.
Variable unitCount : string → nat.

(** The validation chain of [POST /]. *)
Definition validCreate (b : CreateBody) : bool :=
  bool_decide (1 ≤ charCount (cb_title b) ≤ 200)
  && truthy (cb_content b)
  && bool_decide (cb_status b ≠ archived).

(** The validation chain of [PUT /:id]. *)
Definition validUpdate (b : UpdateBody) : bool :=
  from_option (λ t, bool_decide (1 ≤ charCount t ≤ 200)) true (ub_title b)
  && from_option truthy true (ub_content b).

(** The validators of the schema, which every [save] runs on the whole
    document: [title] is required and has [maxlength] 200, [content] is
    required, and so are [content] and [title] of each version (the other
    required paths are always set in this model). When one of them fails
    [save] throws, nothing is written, and the [catch] of the route
    answers with status 500. *)
Definition schemaValid (d : Document) : bool :=
  truthy (title d) && bool_decide (unitCount (title d) ≤ 200)
  && truthy (content d)
  && forallb (λ v, truthy (ver_content v) && truthy (ver_title v))
       (versions d).

(** The queries on the users collection, which is outside this model:
    [User.findOne({ $or: [{ name: { $regex: token, $options: 'i' } },
    { email: { $regex: token, $options: 'i' } }] })] for a mention token,
    [User.findOne({ email })] for a collaborator, each giving the [_id] of
    the user found; and the [isEmail] validator. *)
Variable findUserByMention : string → option UserId.
Variable findUserByEmail : string → option UserId.
Variable isEmail : string → bool.

(** The ids pushed on the local [mentions] array, in order of the matches;
    a token that finds no user is skipped. *)
Definition resolveMentions (content : string) : list UserId :=
  omap findUserByMention (mentionTokens content).

(** The handler of [POST /] after validation. *)
Definition createHandler (user : AuthUser) (b : CreateBody) (now : Date)
  : Document :=
  let mentioned := resolveMentions (cb_content b) in
  let document :=
    save now (construct
      (mkDocument (cb_title b) (cb_content b) (user_id user) (cb_status b)
         (cb_privacy b) [] [] 1 (default [] (cb_tags b)) [] []
         (Some (user_id user)) false)) in
  let document := on_fields (recordMentions mentioned now) document in
  let document :=
    on_fields (grantMentioned mentioned (user_id user) now) document in
  fields (save now document).

(** [POST /api/documents]; [newId] is the [_id] generated for the
    document, which the collection rejects when it is taken. The two
    saves of the handler validate the same title and content. *)
Definition createDocument (store : gmap string Document) (newId : DocId)
    (user : AuthUser) (b : CreateBody) (now : Date)
  : Result Document * gmap string Document :=
  if negb (validCreate b) then (Err ValidationError, store)
  else match store !! newId with
       | Some _ => (Err InternalError, store)
       | None =>
           let d := createHandler user b now in
           if negb (schemaValid d) then (Err InternalError, store)
           else (Ok d, <[newId := d]> store)
       end.

(** The handler of [PUT /:id] once the document is loaded and the
    permission check has passed. *)
Definition updateHandler (d : Document) (user : AuthUser) (b : UpdateBody)
    (now : Date) : Document :=
  let document := hydrate d in
  let document :=
    when_truthy (ub_content b)
      (λ c, on_fields (shareWithMentioned (resolveMentions c) (user_id user) now))
      document in
  let document := when_truthy (ub_title b) assign_title document in
  let document := when_truthy (ub_content b) assign_content document in
  let document :=
    when_present (ub_privacy b) (λ v, on_fields (set_privacy v)) document in
  let document :=
    when_present (ub_status b) (λ v, on_fields (set_status v)) document in
  let document :=
    when_present (ub_tags b) (λ v, on_fields (set_tags v)) document in
  let document := on_fields (set_lastModifiedBy (user_id user)) document in
  fields (save now document).

(** [PUT /api/documents/:id]; [id] is [req.params.id]. The validation
    result is read first; a [CastError] of [findById] and a [save] that
    the schema refuses are caught and answered with status 500, the
    collection as it was. *)
Definition updateDocument (store : gmap string Document) (user : AuthUser)
    (id : string) (b : UpdateBody) (now : Date)
  : Result Document * gmap string Document :=
  if negb (validUpdate b) then (Err ValidationError, store)
  else match castObjectId id with
       | None => (Err InternalError, store)
       | Some oid =>
           match store !! oid with
           | None => (Err NotFound, store)
           | Some d =>
               if isDeleted d then (Err NotFound, store)
               else if negb (hasPermission d (user_id user) edit)
               then (Err Forbidden, store)
               else let d' := updateHandler d user b now in
                    if negb (schemaValid d') then (Err InternalError, store)
                    else (Ok d', <[oid := d']> store)
           end
       end.

(** [DELETE /api/documents/:id] *)
Definition deleteDocument (store : gmap string Document) (user : AuthUser)
    (id : string) (now : Date) : Result unit * gmap string Document :=
  match castObjectId id with
  | None => (Err InternalError, store)
  | Some oid =>
      match store !! oid with
      | None => (Err NotFound, store)
      | Some d =>
          if isDeleted d then (Err NotFound, store)
          else if notOwnerNorAdmin d user then (Err Forbidden, store)
          else
            let d' :=
              fields (save now (on_fields (set_isDeleted true) (hydrate d))) in
            if negb (schemaValid d') then (Err InternalError, store)
            else (Ok (), <[oid := d']> store)
      end
  end.

(** [POST /api/documents/:id/collaborators] *)
Definition grantCollaborator (store : gmap string Document) (user : AuthUser)
    (id : string) (email : string) (level : Level) (now : Date)
  : Result (list Permission) * gmap string Document :=
  if negb (isEmail email) then (Err ValidationError, store)
  else match castObjectId id with
       | None => (Err InternalError, store)
       | Some oid =>
           match store !! oid with
           | None => (Err NotFound, store)
           | Some d =>
               if isDeleted d then (Err NotFound, store)
               else if notOwnerNorAdmin d user then (Err Forbidden, store)
               else match findUserByEmail email with
                    | None => (Err NotFound, store)
                    | Some target =>
                        let d' :=
                          fields (save now
                            (on_fields
                               (addCollaborator target level (user_id user) now)
                               (hydrate d))) in
                        if negb (schemaValid d') then (Err InternalError, store)
                        else (Ok (permissions d'), <[oid := d']> store)
                    end
           end
       end.

(** [DELETE /api/documents/:id/collaborators/:userId]; [userId] is
    [req.params.userId], which the method compares as a string. *)
Definition revokeCollaborator (store : gmap string Document) (user : AuthUser)
    (id : string) (userId : UserId) (now : Date)
  : Result unit * gmap string Document :=
  match castObjectId id with
  | None => (Err InternalError, store)
  | Some oid =>
      match store !! oid with
      | None => (Err NotFound, store)
      | Some d =>
          if isDeleted d then (Err NotFound, store)
          else if notOwnerNorAdmin d user then (Err Forbidden, store)
          else
            let d' :=
              fields (save now
                (on_fields (removeCollaborator userId) (hydrate d))) in
            if negb (schemaValid d') then (Err InternalError, store)
            else (Ok (), <[oid := d']> store)
      end
  end.

(** The requests that write to the documents collection; [id] is the
    route parameter. *)
Inductive Request :=
| ReqCreate (newId : DocId) (user : AuthUser) (b : CreateBody) (now : Date)
| ReqUpdate (user : AuthUser) (id : string) (b : UpdateBody) (now : Date)
| ReqDelete (user : AuthUser) (id : string) (now : Date)
| ReqGrant (user : AuthUser) (id : string) (email : string) (level : Level)
    (now : Date)
| ReqRevoke (user : AuthUser) (id : string) (userId : UserId) (now : Date).

(** The collection after a request. *)
Definition handle (store : gmap string Document) (r : Request)
  : gmap string Document :=
  match r with
  | ReqCreate newId user b now => (createDocument store newId user b now).2
  | ReqUpdate user id b now => (updateDocument store user id b now).2
  | ReqDelete user id now => (deleteDocument store user id now).2
  | ReqGrant user id email level now =>
      (grantCollaborator store user id email level now).2
  | ReqRevoke user id userId now =>
      (revokeCollaborator store user id userId now).2
  end.

(** The collection after a sequence of requests, starting empty. *)
Definition run (reqs : list Request) : gmap string Document :=
  foldl handle ∅ reqs.

End Routes.

(** ** Vocabulary of the properties *)

(** The collaborator list mirrors the users of the permission entries,
    and neither lists a user twice. *)
Definition synced (d : Document) : Prop :=
  NoDup (collaborators d) ∧ NoDup (permissionUsers d)
  ∧ ∀ u, u ∈ collaborators d ↔ u ∈ permissionUsers d.

(** How often a list holds an element that satisfies [P]. *)
Definition occurrences {A} (P : A → Prop) `{!∀ x, Decision (P x)}
    (l : list A) : nat :=
  length (filter P l).

(** The users recorded in [mentions], in order. *)
Definition mentionUsers (d : Document) : list UserId :=
  mention_user <$> mentions d.

(** [u] is a collaborator once, holds one permission entry, at level
    view, and is mentioned once. *)
Definition shared_once (d : Document) (u : UserId) : Prop :=
  occurrences (λ c, c = u) (collaborators d) = 1
  ∧ occurrences (λ p, perm_user p = u) (permissions d) = 1
  ∧ (∀ p, p ∈ permissions d → perm_user p = u → permission p = view)
  ∧ occurrences (λ m, mention_user m = u) (mentions d) = 1.

(** [d'] differs from [d] at most in [permissions], [collaborators] and
    [mentions]. *)
Definition sharing_only (d d' : Document) : Prop :=
  title d' = title d ∧ content d' = content d ∧ author d' = author d
  ∧ status d' = status d ∧ privacy d' = privacy d
  ∧ versions d' = versions d ∧ currentVersion d' = currentVersion d
  ∧ tags d' = tags d ∧ lastModifiedBy d' = lastModifiedBy d
  ∧ isDeleted d' = isDeleted d.

(** Every field of [d'] but [isDeleted] is as in [d]. *)
Definition same_data (d d' : Document) : Prop :=
  title d' = title d ∧ content d' = content d ∧ author d' = author d
  ∧ status d' = status d ∧ privacy d' = privacy d
  ∧ permissions d' = permissions d ∧ versions d' = versions d
  ∧ currentVersion d' = currentVersion d ∧ tags d' = tags d
  ∧ mentions d' = mentions d ∧ collaborators d' = collaborators d
  ∧ lastModifiedBy d' = lastModifiedBy d.

(** The update appended one entry that holds the title and content as
    they were before the update. *)
Definition records_prior_state (d d' : Document) : Prop :=
  ∃ e, versions d' = versions d ++ [e]
       ∧ ver_title e = title d ∧ ver_content e = content d.

(** The update appended one entry that holds the title and content as
    they are after the update. *)
Definition records_new_state (d d' : Document) : Prop :=
  ∃ e, versions d' = versions d ++ [e]
       ∧ ver_title e = title d' ∧ ver_content e = content d'.

(** Every stored document is synced. *)
Definition store_synced (store : gmap string Document) : Prop :=
  map_Forall (λ _ d, synced d) store.

(** The value of a string field after [if (v) document.f = v]. *)
Definition assigned (o : option string) (old : string) : string :=
  match o with
  | Some v => if truthy v then v else old
  | None => old
  end.

(** Whether that assignment marks the path as modified. *)
Definition marks (o : option string) (old : string) : bool :=
  match o with
  | Some v => truthy v && negb (bool_decide (v = old))
  | None => false
  end.

(** The fields of [PUT /:id] before the save, from the document [d1] left
    by the mention block. *)
Definition assignedFields (user : AuthUser) (b : UpdateBody) (d1 : Document)
  : Document :=
  set_lastModifiedBy (user_id user)
    (from_option set_tags id (ub_tags b)
       (from_option set_status id (ub_status b)
          (from_option set_privacy id (ub_privacy b)
             (set_content (assigned (ub_content b) (content d1))
                (set_title (assigned (ub_title b) (title d1)) d1))))).

(** The document of [PUT /:id] after the mention block. *)
Definition afterMentions (findUserByMention : string → option UserId)
    (user : AuthUser) (b : UpdateBody) (now : Date) (d : Document)
  : Document :=
  match ub_content b with
  | Some c =>
      if truthy c
      then shareWithMentioned (resolveMentions findUserByMention c)
             (user_id user) now d
      else d
  | None => d
  end.

(** The document of [POST /] after [Document.create]: the first save of
    the new document has run the hook. *)
Definition firstSaved (user : AuthUser) (b : CreateBody) (now : Date)
  : Document :=
  mkDocument (cb_title b) (cb_content b) (user_id user) (cb_status b)
    (cb_privacy b) []
    [mkVersion (cb_content b) (cb_title b) 2 (user_id user) now EmptyString]
    2 (default [] (cb_tags b)) [] [] (Some (user_id user)) false.

(** The order of the levels in the words of the specification: view
    below edit below admin. [covers held required]: a grant at [held]
    gives what [required] asks for. *)
Definition covers (held required : Level) : bool :=
  match required, held with
  | view, _ => true
  | edit, edit | edit, admin => true
  | admin, admin => true
  | _, _ => false
  end.

(** ** A scenario: Ann, Bob and two documents *)

(** The ids of the scenario are strings of 24 hexadecimal digits in lower
    case, which Mongoose casts to the ObjectId that they spell; the
    scenario uses no other string that Mongoose would cast. *)
Definition isLowerHex (c : ascii) : bool :=
  let n := nat_of_ascii c in
  ((48 <=? n) && (n <=? 57)) || ((97 <=? n) && (n <=? 102)).

Fixpoint allLowerHex (s : string) : bool :=
  match s with
  | EmptyString => true
  | String c s' => isLowerHex c && allLowerHex s'
  end.

Definition castHex (s : string) : option DocId :=
  if (String.length s =? 24) && allLowerHex s then Some s else None.

(** The texts of the scenario are held as their UTF-8 bytes. A character
    starts at every byte that is not a continuation byte (10xxxxxx); it
    takes two UTF-16 code units when its first byte is 11110xxx, and one
    otherwise. [isLength] counts a surrogate pair once, so it counts the
    characters. *)
Definition isContinuation (c : ascii) : bool :=
  let n := nat_of_ascii c in (128 <=? n) && (n <? 192).

Definition isLead4 (c : ascii) : bool := 240 <=? nat_of_ascii c.

Fixpoint utf8Chars (s : string) : nat :=
  match s with
  | EmptyString => 0
  | String c s' => (if isContinuation c then 0 else 1) + utf8Chars s'
  end.

Fixpoint utf16Units (s : string) : nat :=
  match s with
  | EmptyString => 0
  | String c s' =>
      (if isContinuation c then 0 else if isLead4 c then 2 else 1)
      + utf16Units s'
  end.




(** A users collection in which the tokens [alice] and [bob] find a
    user. *)
Definition directory (token : string) : option UserId :=
  if decide (token = "alice"%string) then Some "a11ce0000000000000000003"%string
  else if decide (token = "bob"%string) then Some "bbbb00000000000000000002"%string
  else None.

Definition byEmail (email : string) : option UserId :=
  if decide (email = "bob@example.org"%string) then Some "bbbb00000000000000000002"%string
  else None.

Definition anyEmail (email : string) : bool := true.

Definition ann : AuthUser := mkAuthUser "aaaa00000000000000000001" role_user.

Definition bob : AuthUser := mkAuthUser "bbbb00000000000000000002" role_user.

(** A document of Ann where Bob holds a view entry. *)
Definition sharedDraft : Document :=
  mkDocument "Roadmap" "Plans for Q3" "aaaa00000000000000000001" draft private
    [mkPermission "bbbb00000000000000000002" view "aaaa00000000000000000001" 3]
    [mkVersion "Plans for Q3" "Roadmap" 2 "aaaa00000000000000000001" 2 EmptyString] 2 [] []
    ["bbbb00000000000000000002"%string] (Some "aaaa00000000000000000001"%string) false.

(** A stored document of Ann, on which Bob holds an edit entry. *)
Definition annDoc : Document :=
  mkDocument "Old title" "Old body" "aaaa00000000000000000001" draft private
    [mkPermission "bbbb00000000000000000002" edit "aaaa00000000000000000001" 6]
    [mkVersion "Old body" "Old title" 2 "aaaa00000000000000000001" 5 EmptyString] 2 [] []
    ["bbbb00000000000000000002"%string] (Some "aaaa00000000000000000001"%string) false.

Definition library : gmap string Document := {[ "d0c000000000000000000001"%string := annDoc ]}.

Definition welcome : CreateBody :=
  mkCreateBody "Notes" "Welcome @alice and @bob, thanks @alice" private draft
    None.

Definition retitle : UpdateBody :=
  mkUpdateBody (Some "New title"%string) None None None None.



Definition publish : UpdateBody :=
  mkUpdateBody None None None (Some published) None.

Definition pingBob : UpdateBody :=
  mkUpdateBody None (Some "Ping @bob"%string) None None None.

(** Ann creates a document, makes Bob an editor, Bob publishes it. *)
Definition history : list Request :=
  [ReqCreate "d0c000000000000000000001" ann welcome 5;
   ReqGrant ann "d0c000000000000000000001" "bob@example.org" edit 6;
   ReqUpdate bob "d0c000000000000000000001" publish 7].

(** ** The read routes, the queries and the deletion of a user *)

Section Reads.

Variable castObjectId : string → option DocId.

(** [GET /api/documents/:id/versions], behind [protect]. The query
    populates [versions.createdBy] only, so [hasPermission] sees the
    author and the permission users as ids. A [CastError] of [findById]
    is caught and answered with status 500. *)
Definition getVersions (store : gmap string Document) (user : AuthUser)
    (id : string) : Result (list Version) :=
  match castObjectId id with
  | None => Err InternalError
  | Some oid =>
      match store !! oid with
      | None => Err NotFound
      | Some d =>
          if isDeleted d then Err NotFound
          else if negb (hasPermission d (user_id user) view) then Err Forbidden
          else Ok (versions d)
      end
  end.

End Reads.

(** The query condition [{ 'permissions.user': userId }]: some element of
    the array has that user. *)
Definition holdsEntry (userId : UserId) (d : Document) : bool :=
  bool_decide (userId ∈ permissionUsers d).

(** The condition [$or: [{ author: req.user.id }, { privacy: 'public' },
    { 'permissions.user': req.user.id }]] of the list and search queries. *)
Definition accessClause (userId : UserId) (d : Document) : bool :=
  bool_decide (author d = userId) || bool_decide (privacy d = public)
  || holdsEntry userId d.

(** An optional equality condition of a query ([if (v) query.f = v]). *)
Definition whenGiven {A} `{EqDecision A} (o : option A) (x : A) : bool :=
  from_option (λ v, bool_decide (x = v)) true o.

(** The query of [GET /api/users/:id/documents]: all the documents of the
    user for the user and for an admin, the public ones for the others. *)
Definition userDocumentsQuery (viewer : AuthUser) (ownerId : UserId)
    (statusFilter : option Status) (d : Document) : bool :=
  negb (isDeleted d)
  && (if bool_decide (ownerId = user_id viewer)
         || bool_decide (role viewer = role_admin)
      then bool_decide (author d = ownerId)
      else bool_decide (author d = ownerId) && bool_decide (privacy d = public))
  && whenGiven statusFilter (status d).

(** The query of [GET /api/users/:id/collaborations]. *)
Definition collaborationsQuery (userId : UserId) (d : Document) : bool :=
  holdsEntry userId d && negb (isDeleted d).

(** The two [Document.updateMany] of [DELETE /api/users/:id]: the
    documents of the user are marked deleted; then, in the documents where
    the user holds an entry, [$pull] takes the entries of the user out of
    [permissions] and the user out of [collaborators] (what
    [removeCollaborator] does to one document). [updateMany] runs no save
    hook. *)
Definition deleteUserCascade (target : UserId)
    (store : gmap string Document) : gmap string Document :=
  let softDeleted :=
    (λ d, if bool_decide (author d = target) then set_isDeleted true d else d)
      <$> store in
  (λ d, if holdsEntry target d then removeCollaborator target d else d)
    <$> softDeleted.

Section Queries.

(** The text index: [{ $text: { $search: q } }] on title, content and
    tags, which MongoDB evaluates. *)
Variable textSearch : string → Document → bool.

(** The query of [GET /api/documents], for [req.query.status] and
    [req.query.search]. *)
Definition listQuery (user : AuthUser) (statusFilter : option Status)
    (search : option string) (d : Document) : bool :=
  negb (isDeleted d) && accessClause (user_id user) d
  && whenGiven statusFilter (status d)
  && from_option (λ q, textSearch q d) true search.

(** The query of [GET /api/search/documents]: without a user the privacy
    condition is set to public, over the filter of the request. *)
Definition searchQuery (user : option AuthUser) (q : string)
    (statusFilter : option Status) (privacyFilter : option Privacy)
    (d : Document) : bool :=
  textSearch q d && negb (isDeleted d)
  && whenGiven statusFilter (status d)
  && match user with
     | Some u => whenGiven privacyFilter (privacy d)
                 && accessClause (user_id u) d
     | None => bool_decide (privacy d = public)
     end.

(** The documents that [Document.find(query)] and
    [Document.countDocuments(query)] range over. *)
Definition matching (query : Document → bool)
    (store : gmap string Document) : gmap string Document :=
  filter (λ kv, query kv.2 = true) store.

End Queries.

Section Events.

Variable castObjectId : string → option DocId.
Variable charCount : string → nat.
Variable unitCount : string → nat.
Variable findUserByMention : string → option UserId.
Variable findUserByEmail : string → option UserId.
Variable isEmail : string → bool.

(** [User.findById] finds a user with this [_id]. *)
Variable userExists : UserId → bool.

(** The handler of [DELETE /api/users/:id], which runs behind [protect]
    and [authorize('admin')]; [targetId] is [req.params.id], which
    [User.findById] casts as [Document.findById] does, and [uid] the
    [_id] of the user found. The users collection is outside this
    model. *)
Definition deleteUser (store : gmap string Document) (actor : AuthUser)
    (targetId : string) : Result unit * gmap string Document :=
  match castObjectId targetId with
  | None => (Err InternalError, store)
  | Some uid =>
      if negb (userExists uid) then (Err NotFound, store)
      else if bool_decide (uid = user_id actor)
      then (Err ValidationError, store)
      else (Ok (), deleteUserCascade uid store)
  end.

(** What writes to the documents collection: the requests to the
    documents router and the deletion of a user. *)
Inductive Event :=
| DocumentRequest (r : Request)
| UserDeletion (actor : AuthUser) (targetId : string).

Definition apply (store : gmap string Document) (e : Event)
  : gmap string Document :=
  match e with
  | DocumentRequest r =>
      handle castObjectId charCount unitCount findUserByMention
        findUserByEmail isEmail store r
  | UserDeletion actor targetId => (deleteUser store actor targetId).2
  end.

(** The collection after a sequence of events, starting empty. *)
Definition replay (events : list Event) : gmap string Document :=
  foldl apply ∅ events.

End Events.

(** The user who sends a request. *)
Definition requester (r : Request) : AuthUser :=
  match r with
  | ReqCreate _ user _ _ => user
  | ReqUpdate user _ _ _ => user
  | ReqDelete user _ _ => user
  | ReqGrant user _ _ _ _ => user
  | ReqRevoke user _ _ _ => user
  end.

(** The version numbers are 2, 3, ... in order, [currentVersion] is the
    last of them, and the last entry holds the current title and
    content. *)
Definition versioned (d : Document) : Prop :=
  versionNumber <$> versions d = seq 2 (length (versions d))
  ∧ currentVersion d = S (length (versions d))
  ∧ ∃ e, last (versions d) = Some e
         ∧ ver_title e = title d ∧ ver_content e = content d.

(** A token of [\w] characters only. *)
Fixpoint wordOnly (t : string) : bool :=
  match t with
  | EmptyString => true
  | String c t' => isWordChar c && wordOnly t'
  end.

(** What the deletion of the user [target] does to one document. *)
Definition afterUserDeletion (target : UserId) (d : Document) : Document :=
  let d1 := if bool_decide (author d = target) then set_isDeleted true d
            else d in
  if holdsEntry target d1 then removeCollaborator target d1 else d1.

(** What holds of every document that the routes store. *)
Definition wellFormed (unitCount : string → nat) (d : Document) : Prop :=
  synced d ∧ versioned d ∧ NoDup (mentionUsers d)
  ∧ schemaValid unitCount d = true.

(** More of the scenario: an admin, Alice, a text index that matches
    everything, a users collection that knows every id, a deleted copy of
    Ann's document, and a sequence of events that ends with the deletion
    of Alice. *)
Definition root : AuthUser := mkAuthUser "ffff00000000000000000009" role_admin.

Definition alice : AuthUser := mkAuthUser "a11ce0000000000000000003" role_user.

Definition matchAll (q : string) (d : Document) : bool := true.

Definition knownUser (id : UserId) : bool := true.

Definition binned : gmap string Document :=
  {[ "d0c000000000000000000001"%string := set_isDeleted true annDoc ]}.

Definition timeline : list Event :=
  [DocumentRequest (ReqCreate "d0c000000000000000000001" ann welcome 5);
   DocumentRequest (ReqGrant ann "d0c000000000000000000001" "bob@example.org" edit 6);
   DocumentRequest (ReqUpdate bob "d0c000000000000000000001" retitle 7);
   UserDeletion root "a11ce0000000000000000003"].

(** * Properties *)

(** ** Permission evaluator *)

Lemma findPermission_None u ps :
  findPermission u ps = None ↔ u ∉ perm_user <$> ps.
Proof.
  unfold findPermission. rewrite list_find_None, Forall_forall.
  rewrite list_elem_of_fmap. split.
  - intros H [p [-> Hp]]. by apply (H p).
  - intros H p Hp Hu. apply H. by exists p.
Qed.

Lemma findPermission_Some u ps i p :
  findPermission u ps = Some (i, p) →
  ps !! i = Some p ∧ perm_user p = u.
Proof.
  unfold findPermission. intros H. apply list_find_Some in H. tauto.
Qed.

Lemma NoDup_fmap_unique {A B} (f : A → B) (l : list A) x y :
  NoDup (f <$> l) → x ∈ l → y ∈ l → f x = f y → x = y.
Proof.
  induction l as [|a l IH]; simpl; intros Hnd Hx Hy Hf.
  - by apply elem_of_nil in Hx.
  - apply NoDup_cons in Hnd as [Ha Hnd].
    apply elem_of_cons in Hx as [->|Hx]; apply elem_of_cons in Hy as [->|Hy];
      try done.
    + exfalso. apply Ha. rewrite Hf. by apply list_elem_of_fmap_2.
    + exfalso. apply Ha. rewrite <- Hf. by apply list_elem_of_fmap_2.
    + by apply IH.
Qed.

(** [hasPermission] in terms of the entry that [find] returns, the first
    one of the user. *)
Lemma hasPermission_first_entry d u r :
  hasPermission d u r = true ↔
    (privacy d = public ∧ r = view) ∨ u = author d
    ∨ ∃ i p, findPermission u (permissions d) = Some (i, p)
             ∧ permissionLevels r ≤ permissionLevels (permission p).
Proof.
  unfold hasPermission.
  destruct (decide (privacy d = public ∧ r = view)) as [[Hp Hr]|Hpub].
  { rewrite !bool_decide_eq_true_2 by done. simpl. split; [by left|done]. }
  assert (bool_decide (privacy d = public) && bool_decide (r = view) = false)
    as ->.
  { apply andb_false_iff. rewrite !bool_decide_eq_false.
    destruct (decide (privacy d = public)); [right|left]; tauto. }
  destruct (decide (author d = u)) as [Ha|Ha].
  { rewrite bool_decide_eq_true_2 by done. split; [by right; left|done]. }
  rewrite bool_decide_eq_false_2 by done.
  destruct (findPermission u (permissions d)) as [[i p]|]; simpl.
  - rewrite Nat.leb_le. split.
    + intros Hle. right; right. by exists i, p.
    + intros [?|[?|(j & q & [= <- <-] & Hle)]]; [tauto|congruence|done].
  - split; [done|].
    intros [?|[?|(j & q & ? & _)]]; [tauto|congruence|done].
Qed.

(** The table of the method orders the levels as the specification
    does. *)
Lemma covers_permissionLevels held required :
  covers held required = true
  ↔ permissionLevels required ≤ permissionLevels held.
Proof. destruct held, required; simpl; split; (done || lia). Qed.

(** C1. With at most one permission entry per user (the data model's
    upsert invariant), [hasPermission] grants exactly when the document is
    public and the required level is view, or the user is the author, or
    the user's entry has a level at least the required one under the
    order view < edit < admin, which the method's table renders as 1, 2
    and 3. In particular a user that is not the author and has no entry
    is denied on a private document, also for view. *)
Theorem hasPermission_spec (d : Document) (userId : UserId) (required : Level) :
  NoDup (permissionUsers d) →
  (hasPermission d userId required = true ↔
     (privacy d = public ∧ required = view)
     ∨ userId = author d
     ∨ ∃ p, p ∈ permissions d ∧ perm_user p = userId
            ∧ covers (permission p) required = true)
  ∧ (permissionLevels view = 1 ∧ permissionLevels edit = 2
     ∧ permissionLevels admin = 3)
  ∧ (privacy d = private → userId ≠ author d → userId ∉ permissionUsers d →
     ∀ r, hasPermission d userId r = false).
Proof.
  intros Hnd. split_and!; try reflexivity.
  - rewrite hasPermission_first_entry. do 2 apply or_iff_compat_l. split.
    + intros (i & p & Hf & Hle). apply findPermission_Some in Hf as [Hi Hu].
      exists p. split_and!; try done.
      * by eapply list_elem_of_lookup_2.
      * by apply covers_permissionLevels.
    + intros (q & Hq & Hqu & Hle). apply covers_permissionLevels in Hle.
      destruct (findPermission userId (permissions d)) as [[i p]|] eqn:Hf.
      * exists i, p. split; [done|].
        apply findPermission_Some in Hf as [Hi Hu].
        assert (q = p) as ->; [|done].
        eapply (NoDup_fmap_unique perm_user); [exact Hnd|done| |congruence].
        by eapply list_elem_of_lookup_2.
      * apply findPermission_None in Hf. destruct Hf.
        rewrite <- Hqu. by apply list_elem_of_fmap_2.
  - intros Hpriv Hna Hno r.
    apply not_true_is_false. rewrite hasPermission_first_entry.
    apply findPermission_None in Hno. rewrite Hno, Hpriv.
    intros [[? _]|[?|(i & p & ? & _)]]; done.
Qed.

(** ** The collaborator manager *)

Lemma occurrences_absent {A B} `{EqDecision B} (f : A → B) (l : list A) u :
  u ∉ f <$> l → occurrences (λ x, f x = u) l = 0.
Proof.
  unfold occurrences. induction l as [|a l IH]; simpl; intros Hin; [done|].
  apply not_elem_of_cons in Hin as [Hne Hin].
  rewrite filter_cons_False by congruence. by apply IH.
Qed.

Lemma occurrences_unique {A B} `{EqDecision B} (f : A → B) (l : list A) u :
  NoDup (f <$> l) → u ∈ f <$> l → occurrences (λ x, f x = u) l = 1.
Proof.
  induction l as [|a l IH]; simpl; intros Hnd Hin.
  - by apply elem_of_nil in Hin.
  - apply NoDup_cons in Hnd as [Ha Hnd]. unfold occurrences in *.
    destruct (decide (f a = u)) as [Heq|Hne].
    + rewrite filter_cons_True by done. simpl. f_equal.
      apply (occurrences_absent f l u). by rewrite <- Heq.
    + rewrite filter_cons_False by done. apply IH; [done|].
      apply elem_of_cons in Hin as [Hin|Hin]; [congruence|done].
Qed.

Lemma fmap_filter_key {A B} (f : A → B) (P : B → Prop)
    `{!∀ y, Decision (P y)} (l : list A) :
  f <$> filter (λ x, P (f x)) l = filter P (f <$> l).
Proof.
  induction l as [|a l IH]; [done|].
  rewrite fmap_cons, !filter_cons.
  destruct (decide (P (f a))); [rewrite fmap_cons|]; by rewrite IH.
Qed.

(** *** [addCollaborator] *)

Lemma addCollaborator_users u lvl g now d :
  permissionUsers (addCollaborator u lvl g now d) =
    if decide (u ∈ permissionUsers d) then permissionUsers d
    else permissionUsers d ++ [u].
Proof.
  unfold permissionUsers, addCollaborator; simpl.
  destruct (findPermission u (permissions d)) as [[i p]|] eqn:Hf.
  - apply findPermission_Some in Hf as [Hi Hu].
    rewrite decide_True.
    + rewrite list_fmap_insert. simpl. apply list_insert_id.
      by rewrite list_lookup_fmap, Hi.
    + rewrite <- Hu. by eapply list_elem_of_fmap_2, list_elem_of_lookup_2.
  - apply findPermission_None in Hf. rewrite decide_False by done.
    by rewrite fmap_app.
Qed.

Lemma addCollaborator_collaborators u lvl g now d :
  collaborators (addCollaborator u lvl g now d) =
    if decide (u ∈ collaborators d) then collaborators d
    else collaborators d ++ [u].
Proof. unfold addCollaborator; simpl. by destruct (decide _). Qed.

Lemma snoc_unless_member_NoDup (u : string) (l : list string) :
  NoDup l → NoDup (if decide (u ∈ l) then l else l ++ [u]).
Proof.
  intros Hnd. destruct (decide (u ∈ l)) as [Hin|Hin]; [done|].
  apply NoDup_app. split_and!; [done| |apply NoDup_singleton].
  intros x Hx Hxu. apply list_elem_of_singleton in Hxu. by subst.
Qed.

Lemma snoc_unless_member_elem (u v : string) (l : list string) :
  v ∈ (if decide (u ∈ l) then l else l ++ [u]) ↔ v ∈ l ∨ v = u.
Proof.
  destruct (decide (u ∈ l)) as [Hin|Hin].
  - split; [by left|]. intros [?| ->]; done.
  - rewrite elem_of_app, list_elem_of_singleton. done.
Qed.

Lemma addCollaborator_synced u lvl g now d :
  synced d → synced (addCollaborator u lvl g now d).
Proof.
  intros (Hc & Hp & Heq). unfold synced.
  rewrite addCollaborator_users, addCollaborator_collaborators.
  split_and!; try by apply snoc_unless_member_NoDup.
  intros v. rewrite !snoc_unless_member_elem, Heq. done.
Qed.

(** The entry of [u] after a grant: the first and, without duplicates, the
    only one, at the level granted. *)
Lemma addCollaborator_entry u lvl g now d :
  ∃ i, findPermission u (permissions (addCollaborator u lvl g now d))
       = Some (i, mkPermission u lvl g now).
Proof.
  unfold addCollaborator; simpl. unfold findPermission.
  destruct (list_find _ (permissions d)) as [[i p]|] eqn:Hf.
  - exists i. apply list_find_Some in Hf as (Hi & Hu & Hlt).
    apply list_find_Some. split_and!.
    + rewrite Hu. apply list_lookup_insert_eq. by eapply lookup_lt_Some.
    + done.
    + intros j y Hj Hji. rewrite list_lookup_insert_ne in Hj by lia.
      by eapply Hlt.
  - exists (length (permissions d)). apply list_find_None in Hf.
    apply list_find_Some. split_and!.
    + by rewrite lookup_app_r, Nat.sub_diag by lia.
    + done.
    + intros j y Hj Hji. rewrite lookup_app_l in Hj by done.
      rewrite Forall_forall in Hf. eapply Hf. by eapply list_elem_of_lookup_2.
Qed.

Lemma addCollaborator_length_present u lvl g now d :
  u ∈ permissionUsers d →
  length (permissions (addCollaborator u lvl g now d)) = length (permissions d).
Proof.
  intros Hin. unfold addCollaborator; simpl.
  destruct (findPermission u (permissions d)) as [[i p]|] eqn:Hf.
  - apply length_insert.
  - apply findPermission_None in Hf. done.
Qed.

(** *** [removeCollaborator] *)

Lemma removeCollaborator_users u d :
  permissionUsers (removeCollaborator u d)
  = filter (λ c, c ≠ u) (permissionUsers d).
Proof.
  unfold permissionUsers, removeCollaborator; simpl.
  exact (fmap_filter_key perm_user (λ c, c ≠ u) (permissions d)).
Qed.

Lemma removeCollaborator_synced u d :
  synced d → synced (removeCollaborator u d).
Proof.
  intros (Hc & Hp & Heq). unfold synced.
  rewrite removeCollaborator_users. unfold removeCollaborator; simpl.
  split_and!; try by apply NoDup_filter.
  intros v. rewrite !list_elem_of_filter, Heq. done.
Qed.

(** *** [addMention] and the mention folds *)

Lemma addMention_permissions u now d :
  permissions (addMention u now d) = permissions d
  ∧ collaborators (addMention u now d) = collaborators d.
Proof. unfold addMention. by destruct (list_find _ _). Qed.

Lemma addMention_synced u now d : synced d → synced (addMention u now d).
Proof.
  unfold synced, permissionUsers.
  by destruct (addMention_permissions u now d) as [-> ->].
Qed.

Lemma recordMentions_synced l now d :
  synced d → synced (recordMentions l now d).
Proof.
  unfold recordMentions. revert d.
  induction l as [|u l IH]; simpl; intros d Hd; [done|].
  by apply IH, addMention_synced.
Qed.

Lemma grantMentioned_synced l actor now d :
  synced d → synced (grantMentioned l actor now d).
Proof.
  unfold grantMentioned. revert d.
  induction l as [|u l IH]; simpl; intros d Hd; [done|].
  by apply IH, addCollaborator_synced.
Qed.

Lemma shareWithMentioned_synced l actor now d :
  synced d → synced (shareWithMentioned l actor now d).
Proof.
  unfold shareWithMentioned. revert d.
  induction l as [|u l IH]; simpl; intros d Hd; [done|].
  by apply IH, addCollaborator_synced, addMention_synced.
Qed.

(** C7. A grant is an idempotent upsert: on a document that lists no user
    twice, granting [u] a level twice leaves exactly one permission entry
    for [u], at that level (for the claim: edit), and [u] exactly once in
    [collaborators]; the second grant updates the entry in place: it
    appends nothing to [permissions] nor to [collaborators]. *)
Theorem grant_twice_one_entry (d : Document) (u g1 g2 : UserId)
    (lvl : Level) (t1 t2 : Date) :
  NoDup (permissionUsers d) → NoDup (collaborators d) →
  let d1 := addCollaborator u lvl g1 t1 d in
  let d2 := addCollaborator u lvl g2 t2 d1 in
  occurrences (λ p, perm_user p = u) (permissions d2) = 1
  ∧ (∀ p, p ∈ permissions d2 → perm_user p = u → permission p = lvl)
  ∧ occurrences (λ c, c = u) (collaborators d2) = 1
  ∧ length (permissions d2) = length (permissions d1)
  ∧ permissionUsers d2 = permissionUsers d1
  ∧ collaborators d2 = collaborators d1.
Proof.
  intros Hp Hc d1 d2.
  assert (Hp1 : NoDup (permissionUsers d1)).
  { unfold d1. rewrite addCollaborator_users.
    by apply snoc_unless_member_NoDup. }
  assert (Hu1 : u ∈ permissionUsers d1).
  { unfold d1. rewrite addCollaborator_users.
    apply snoc_unless_member_elem. by right. }
  assert (Hc1 : NoDup (collaborators d1)).
  { unfold d1. rewrite addCollaborator_collaborators.
    by apply snoc_unless_member_NoDup. }
  assert (Hv1 : u ∈ collaborators d1).
  { unfold d1. rewrite addCollaborator_collaborators.
    apply snoc_unless_member_elem. by right. }
  assert (Hp2 : permissionUsers d2 = permissionUsers d1).
  { unfold d2. rewrite addCollaborator_users. by rewrite decide_True. }
  assert (Hc2 : collaborators d2 = collaborators d1).
  { unfold d2. rewrite addCollaborator_collaborators. by rewrite decide_True. }
  split_and!; try done.
  - apply (occurrences_unique perm_user).
    + fold (permissionUsers d2). by rewrite Hp2.
    + fold (permissionUsers d2). by rewrite Hp2.
  - intros p Hin Hpu.
    destruct (addCollaborator_entry u lvl g2 t2 d1) as [i Hi].
    fold d2 in Hi. apply findPermission_Some in Hi as [Hi _].
    assert (p = mkPermission u lvl g2 t2) as ->; [|done].
    eapply (NoDup_fmap_unique perm_user); [|exact Hin| |done].
    + fold (permissionUsers d2). by rewrite Hp2.
    + by eapply list_elem_of_lookup_2.
  - rewrite Hc2. apply (occurrences_unique id); by rewrite list_fmap_id.
  - unfold d2. by apply addCollaborator_length_present.
Qed.

Lemma grant_twice_one_entry_witness :
  let d1 := addCollaborator "bbbb00000000000000000002" edit "aaaa00000000000000000001" 7 sharedDraft in
  let d2 := addCollaborator "bbbb00000000000000000002" edit "aaaa00000000000000000001" 8 d1 in
  occurrences (λ p, perm_user p = "bbbb00000000000000000002"%string) (permissions d2) = 1
  ∧ (∀ p, p ∈ permissions d2 → perm_user p = "bbbb00000000000000000002"%string →
       permission p = edit)
  ∧ occurrences (λ c, c = "bbbb00000000000000000002"%string) (collaborators d2) = 1
  ∧ length (permissions d2) = length (permissions d1)
  ∧ permissionUsers d2 = permissionUsers d1
  ∧ collaborators d2 = collaborators d1.
Proof.
  apply (grant_twice_one_entry sharedDraft "bbbb00000000000000000002" "aaaa00000000000000000001" "aaaa00000000000000000001" edit 7 8).
  - apply (bool_decide_unpack _). vm_compute. exact I.
  - apply (bool_decide_unpack _). vm_compute. exact I.
Defined.

(** *** Entries and mentions after the mention folds *)

Lemma addCollaborator_entries u lvl g now d p :
  p ∈ permissions (addCollaborator u lvl g now d) →
  p ∈ permissions d ∨ p = mkPermission u lvl g now.
Proof.
  unfold addCollaborator; simpl.
  destruct (findPermission u (permissions d)) as [[i q]|] eqn:Hf.
  - apply findPermission_Some in Hf as [Hi Hu]. intros Hin.
    apply list_elem_of_lookup_1 in Hin as [j Hj].
    apply list_lookup_insert_Some in Hj as [(-> & <- & _)|[_ Hj]].
    + right. by rewrite Hu.
    + left. by eapply list_elem_of_lookup_2.
  - rewrite elem_of_app, list_elem_of_singleton. tauto.
Qed.

Lemma grantMentioned_levels l actor now d :
  (∀ p, p ∈ permissions d → permission p = view) →
  ∀ p, p ∈ permissions (grantMentioned l actor now d) → permission p = view.
Proof.
  unfold grantMentioned. revert d.
  induction l as [|u l IH]; simpl; intros d H; [done|].
  apply IH. intros p Hp.
  apply addCollaborator_entries in Hp as [Hp| ->]; [by apply H|done].
Qed.

Lemma grantMentioned_users l actor now d u :
  u ∈ permissionUsers (grantMentioned l actor now d)
  ↔ u ∈ permissionUsers d ∨ u ∈ l.
Proof.
  unfold grantMentioned. revert d.
  induction l as [|v l IH]; simpl; intros d.
  - rewrite elem_of_nil. tauto.
  - rewrite IH, addCollaborator_users, snoc_unless_member_elem, elem_of_cons.
    tauto.
Qed.

Lemma grantMentioned_mentions l actor now d :
  mentions (grantMentioned l actor now d) = mentions d.
Proof.
  unfold grantMentioned. revert d.
  induction l as [|v l IH]; simpl; intros d; [done|]. by rewrite IH.
Qed.

Lemma addMention_users u now d :
  mentionUsers (addMention u now d) =
    if decide (u ∈ mentionUsers d) then mentionUsers d
    else mentionUsers d ++ [u].
Proof.
  unfold addMention, mentionUsers.
  destruct (list_find _ (mentions d)) as [[i m]|] eqn:Hf.
  - apply list_find_Some in Hf as (Hi & Hu & _).
    rewrite decide_True; [done|].
    rewrite <- Hu. by eapply list_elem_of_fmap_2, list_elem_of_lookup_2.
  - apply list_find_None in Hf. rewrite Forall_forall in Hf.
    rewrite decide_False.
    + simpl. by rewrite fmap_app.
    + intros Hin. apply list_elem_of_fmap in Hin as [m [-> Hm]].
      by apply (Hf m).
Qed.

Lemma recordMentions_users l now d u :
  u ∈ mentionUsers (recordMentions l now d) ↔ u ∈ mentionUsers d ∨ u ∈ l.
Proof.
  unfold recordMentions. revert d.
  induction l as [|v l IH]; simpl; intros d.
  - rewrite elem_of_nil. tauto.
  - rewrite IH, addMention_users, snoc_unless_member_elem, elem_of_cons.
    tauto.
Qed.

Lemma recordMentions_permissions l now d :
  permissions (recordMentions l now d) = permissions d.
Proof.
  unfold recordMentions. revert d.
  induction l as [|v l IH]; simpl; intros d; [done|].
  rewrite IH. by destruct (addMention_permissions v now d) as [-> _].
Qed.

Lemma recordMentions_NoDup l now d :
  NoDup (mentionUsers d) → NoDup (mentionUsers (recordMentions l now d)).
Proof.
  unfold recordMentions. revert d.
  induction l as [|v l IH]; simpl; intros d Hd; [done|].
  apply IH. rewrite addMention_users. by apply snoc_unless_member_NoDup.
Qed.

(** *** A grant to one user leaves the entries of the others *)

Lemma findPermission_insert_other u v (ps : list Permission) j p0 q :
  ps !! j = Some p0 → perm_user p0 = v → perm_user q = v → u ≠ v →
  findPermission u (<[j := q]> ps) = findPermission u ps.
Proof.
  unfold findPermission. revert j.
  induction ps as [|a ps IH]; intros j Hj Hp0 Hq Hne; [done|].
  destruct j as [|j]; simpl in *.
  - injection Hj as ->. rewrite !decide_False by congruence. done.
  - destruct (decide (perm_user a = u)); [done|]. by rewrite (IH j).
Qed.

Lemma findPermission_snoc_other u (ps : list Permission) q :
  perm_user q ≠ u → findPermission u (ps ++ [q]) = findPermission u ps.
Proof.
  unfold findPermission. intros Hq.
  induction ps as [|a ps IH]; simpl.
  - by rewrite decide_False.
  - destruct (decide (perm_user a = u)); [done|]. by rewrite IH.
Qed.

Lemma addCollaborator_other u v lvl g now d :
  u ≠ v →
  findPermission u (permissions (addCollaborator v lvl g now d))
  = findPermission u (permissions d).
Proof.
  intros Hne. unfold addCollaborator; simpl.
  destruct (findPermission v (permissions d)) as [[j p0]|] eqn:Hf.
  - apply findPermission_Some in Hf as [Hj Hv].
    by apply (findPermission_insert_other u v _ j p0).
  - apply findPermission_snoc_other. simpl. congruence.
Qed.

(** After the mention block every mentioned user holds a view entry,
    whatever entry the user held before. *)
Lemma shareWithMentioned_level l actor now d u :
  u ∈ l →
  ∃ i p, findPermission u (permissions (shareWithMentioned l actor now d))
           = Some (i, p)
         ∧ permission p = view.
Proof.
  unfold shareWithMentioned.
  induction l as [|v l IH] using rev_ind; intros Hin.
  - by apply elem_of_nil in Hin.
  - rewrite foldl_snoc. destruct (decide (u = v)) as [->|Hne].
    + edestruct (addCollaborator_entry v view actor now) as [i Hi].
      exists i. eexists. split; [exact Hi|done].
    + apply elem_of_app in Hin as [Hin|Hin];
        [|by apply list_elem_of_singleton in Hin].
      rewrite addCollaborator_other by done.
      destruct (addMention_permissions v now
                  (foldl (λ d userId,
                            addCollaborator userId view actor now
                              (addMention userId now d)) d l)) as [-> _].
      by apply IH.
Qed.

(** ** The handlers *)

Lemma sharing_only_refl d : sharing_only d d.
Proof. by unfold sharing_only. Qed.

Lemma sharing_only_trans d1 d2 d3 :
  sharing_only d1 d2 → sharing_only d2 d3 → sharing_only d1 d3.
Proof.
  unfold sharing_only.
  intros (?&?&?&?&?&?&?&?&?&?) (?&?&?&?&?&?&?&?&?&?).
  split_and!; congruence.
Qed.

Lemma addCollaborator_sharing_only u lvl g now d :
  sharing_only d (addCollaborator u lvl g now d).
Proof. by unfold sharing_only. Qed.

Lemma addMention_sharing_only u now d : sharing_only d (addMention u now d).
Proof. unfold addMention. destruct (list_find _ _); by unfold sharing_only. Qed.

Lemma removeCollaborator_sharing_only u d :
  sharing_only d (removeCollaborator u d).
Proof. by unfold sharing_only. Qed.

Lemma foldl_sharing_only {A} (f : Document → A → Document) (l : list A) d :
  (∀ d a, sharing_only d (f d a)) → sharing_only d (foldl f d l).
Proof.
  intros Hf. revert d. induction l as [|a l IH]; simpl; intros d.
  - apply sharing_only_refl.
  - eapply sharing_only_trans; [apply Hf|apply IH].
Qed.

Lemma recordMentions_sharing_only l now d :
  sharing_only d (recordMentions l now d).
Proof.
  apply (foldl_sharing_only (λ d u, addMention u now d)).
  intros d0 u. apply addMention_sharing_only.
Qed.

Lemma grantMentioned_sharing_only l actor now d :
  sharing_only d (grantMentioned l actor now d).
Proof.
  apply (foldl_sharing_only (λ d u, addCollaborator u view actor now d)).
  intros d0 u. apply addCollaborator_sharing_only.
Qed.

Lemma shareWithMentioned_sharing_only l actor now d :
  sharing_only d (shareWithMentioned l actor now d).
Proof.
  apply foldl_sharing_only. intros d0 u.
  eapply sharing_only_trans;
    [apply addMention_sharing_only|apply addCollaborator_sharing_only].
Qed.

(** Saving a loaded document whose title and content were not assigned
    writes the fields as they are: the hook records nothing. *)
Lemma save_untouched now f d :
  fields (save now (on_fields f (hydrate d))) = f d.
Proof. reflexivity. Qed.

Lemma marks_assigned o old : marks o old = true ↔ assigned o old ≠ old.
Proof.
  unfold marks, assigned. destruct o as [v|]; [|done].
  destruct (truthy v); simpl; [|done].
  case_bool_decide; simpl; split; try done; intros Hn; by destruct Hn.
Qed.

Lemma update_assignments user b d1 :
  on_fields (set_lastModifiedBy (user_id user))
    (when_present (ub_tags b) (λ v, on_fields (set_tags v))
       (when_present (ub_status b) (λ v, on_fields (set_status v))
          (when_present (ub_privacy b) (λ v, on_fields (set_privacy v))
             (when_truthy (ub_content b) assign_content
                (when_truthy (ub_title b) assign_title (hydrate d1))))))
  = mkTracked (assignedFields user b d1) false
      (marks (ub_title b) (title d1)) (marks (ub_content b) (content d1)).
Proof.
  destruct d1, b as [[t|] [c|] [p|] [s|] [tg|]];
    unfold when_truthy, marks, assigned, assignedFields; simpl;
    repeat match goal with |- context [truthy ?x] => destruct (truthy x) end;
    reflexivity.
Qed.

Section RouteFacts.

Variable castObjectId : string → option DocId.
Variable charCount : string → nat.
Variable unitCount : string → nat.
Variable findUserByMention : string → option UserId.
Variable findUserByEmail : string → option UserId.
Variable isEmail : string → bool.

Set Default Proof Using "Type".

Lemma afterMentions_sharing_only user b now d :
  sharing_only d (afterMentions findUserByMention user b now d).
Proof.
  unfold afterMentions. destruct (ub_content b) as [c|];
    [destruct (truthy c)|]; try apply sharing_only_refl.
  apply shareWithMentioned_sharing_only.
Qed.

Lemma afterMentions_synced user b now d :
  synced d → synced (afterMentions findUserByMention user b now d).
Proof.
  intros H. unfold afterMentions. destruct (ub_content b) as [c|];
    [destruct (truthy c)|]; try done.
  by apply shareWithMentioned_synced.
Qed.

(** What the assignments and the save of [PUT /:id] do to the document
    [d1] left by the mention block. *)
Lemma updateHandler_after_mentions d user b now :
  let d1 := afterMentions findUserByMention user b now d in
  let d' := updateHandler findUserByMention d user b now in
  permissions d' = permissions d1 ∧ collaborators d' = collaborators d1
  ∧ mentions d' = mentions d1 ∧ author d' = author d1
  ∧ isDeleted d' = isDeleted d1
  ∧ lastModifiedBy d' = Some (user_id user)
  ∧ ((title d' = title d1 ∧ content d' = content d1
      ∧ versions d' = versions d1 ∧ currentVersion d' = currentVersion d1)
     ∨ ((title d' ≠ title d1 ∨ content d' ≠ content d1)
        ∧ versions d' =
            versions d1 ++
              [mkVersion (content d') (title d') (currentVersion d1 + 1)
                 (user_id user) now EmptyString]
        ∧ currentVersion d' = currentVersion d1 + 1)).
Proof.
  intros d1 d'. unfold d', updateHandler.
  assert (when_truthy (ub_content b)
            (λ c, on_fields
               (shareWithMentioned (resolveMentions findUserByMention c)
                  (user_id user) now)) (hydrate d) = hydrate d1) as ->.
  { unfold d1, afterMentions, when_truthy.
    destruct (ub_content b) as [c|]; [destruct (truthy c)|]; done. }
  clearbody d1. clear d'. cbv zeta. rewrite update_assignments.
  pose proof (marks_assigned (ub_title b) (title d1)) as Ht.
  pose proof (marks_assigned (ub_content b) (content d1)) as Hc.
  unfold save, preSave, isModified, assignedFields; simpl.
  destruct (ub_tags b), (ub_status b), (ub_privacy b); simpl;
    (destruct (marks (ub_content b) (content d1));
     destruct (marks (ub_title b) (title d1)); simpl;
     split_and!; try done;
     [right; split_and!; try done; right; by apply Hc
     |right; split_and!; try done; right; by apply Hc
     |right; split_and!; try done; left; by apply Ht
     |left; split_and!; try done;
      [destruct (decide (assigned (ub_title b) (title d1) = title d1)) as [|Hn];
         [done|by apply Ht in Hn]
      |destruct (decide (assigned (ub_content b) (content d1) = content d1))
         as [|Hn]; [done|by apply Hc in Hn]]]).
Qed.

Lemma createHandler_unfold user b now :
  createHandler findUserByMention user b now =
    let mentioned := resolveMentions findUserByMention (cb_content b) in
    grantMentioned mentioned (user_id user) now
      (recordMentions mentioned now (firstSaved user b now)).
Proof. reflexivity. Qed.

Lemma createHandler_sharing_only user b now :
  sharing_only (firstSaved user b now)
    (createHandler findUserByMention user b now).
Proof.
  rewrite createHandler_unfold. cbv zeta.
  eapply sharing_only_trans;
    [apply recordMentions_sharing_only|apply grantMentioned_sharing_only].
Qed.

Lemma createHandler_synced user b now :
  synced (createHandler findUserByMention user b now).
Proof.
  rewrite createHandler_unfold. cbv zeta.
  apply grantMentioned_synced, recordMentions_synced.
  unfold synced, permissionUsers; simpl. split_and!; try apply NoDup_nil_2.
  done.
Qed.

Lemma updateHandler_synced d user b now :
  synced d → synced (updateHandler findUserByMention d user b now).
Proof.
  intros Hd. apply (afterMentions_synced user b now) in Hd.
  destruct (updateHandler_after_mentions d user b now)
    as (Hp & Hc & _).
  unfold synced, permissionUsers in *. by rewrite Hp, Hc.
Qed.

Lemma handle_synced store r :
  store_synced store →
  store_synced
    (handle castObjectId charCount unitCount findUserByMention findUserByEmail
       isEmail store r).
Proof.
  intros Hs. unfold store_synced in *.
  destruct r as [newId user b now|user id b now|user id now
                |user id email lvl now|user id u now]; simpl.
  - unfold createDocument. destruct (negb (validCreate charCount b)); [done|].
    destruct (store !! newId); [done|]. destruct (negb _); [done|]. simpl.
    apply map_Forall_insert_2; [apply createHandler_synced|done].
  - unfold updateDocument. destruct (negb (validUpdate charCount b)); [done|].
    destruct (castObjectId id) as [oid|]; [|done].
    destruct (store !! oid) as [d|] eqn:Hd; [|done].
    destruct (isDeleted d); [done|]. destruct (negb _); [done|].
    destruct (negb _); [done|]. simpl.
    apply map_Forall_insert_2; [|done].
    apply updateHandler_synced. exact (Hs oid d Hd).
  - unfold deleteDocument.
    destruct (castObjectId id) as [oid|]; [|done].
    destruct (store !! oid) as [d|] eqn:Hd; [|done].
    destruct (isDeleted d); [done|].
    destruct (notOwnerNorAdmin d user); [done|].
    destruct (negb _); [done|]. simpl.
    apply map_Forall_insert_2; [|done].
    exact (Hs oid d Hd).
  - unfold grantCollaborator. destruct (negb (isEmail email)); [done|].
    destruct (castObjectId id) as [oid|]; [|done].
    destruct (store !! oid) as [d|] eqn:Hd; [|done].
    destruct (isDeleted d); [done|].
    destruct (notOwnerNorAdmin d user); [done|].
    destruct (findUserByEmail email) as [target|]; [|done].
    destruct (negb _); [done|]. simpl.
    apply map_Forall_insert_2; [|done].
    apply addCollaborator_synced. exact (Hs oid d Hd).
  - unfold revokeCollaborator.
    destruct (castObjectId id) as [oid|]; [|done].
    destruct (store !! oid) as [d|] eqn:Hd; [|done].
    destruct (isDeleted d); [done|].
    destruct (notOwnerNorAdmin d user); [done|].
    destruct (negb _); [done|]. simpl.
    apply map_Forall_insert_2; [|done].
    apply removeCollaborator_synced. exact (Hs oid d Hd).
Qed.

Lemma run_synced reqs :
  store_synced (run castObjectId charCount unitCount findUserByMention findUserByEmail isEmail reqs).
Proof.
  unfold run.
  assert (∀ store, store_synced store →
            store_synced
              (foldl (handle castObjectId charCount unitCount findUserByMention findUserByEmail isEmail)
                 store reqs)) as H.
  { induction reqs as [|r reqs IH]; simpl; intros store Hs; [done|].
    by apply IH, handle_synced. }
  apply H, map_Forall_empty.
Qed.

(** C5. After every request that writes documents (create and update with
    their mention grants, grant, revoke, delete), every stored document has
    its [collaborators] and the users of its [permissions] equal as sets,
    and no user twice in either. *)
Theorem collaborators_mirror_permissions (reqs : list Request) (id : DocId)
    (d : Document) :
  run castObjectId charCount unitCount findUserByMention findUserByEmail isEmail reqs !! id = Some d →
  NoDup (collaborators d) ∧ NoDup (permissionUsers d)
  ∧ ∀ u, u ∈ collaborators d ↔ u ∈ permissionUsers d.
Proof.
  intros Hd. exact (run_synced reqs id d Hd).
Qed.

Lemma createHandler_shared_once user b now u :
  u ∈ resolveMentions findUserByMention (cb_content b) →
  shared_once (createHandler findUserByMention user b now) u.
Proof.
  intros Hu.
  destruct (createHandler_synced user b now) as (Hc & Hp & Heq).
  revert Hc Hp Heq. rewrite createHandler_unfold. cbv zeta.
  set (l := resolveMentions findUserByMention (cb_content b)) in *.
  set (d0 := firstSaved user b now). intros Hc Hp Heq.
  assert (Hin : u ∈ permissionUsers
                  (grantMentioned l (user_id user) now
                     (recordMentions l now d0))).
  { apply grantMentioned_users. by right. }
  unfold shared_once. split_and!.
  - apply (occurrences_unique id); rewrite list_fmap_id; [done|].
    by apply Heq.
  - by apply (occurrences_unique perm_user).
  - intros p Hpin _. revert p Hpin. apply grantMentioned_levels.
    rewrite recordMentions_permissions. intros p Hpin.
    by apply elem_of_nil in Hpin.
  - rewrite grantMentioned_mentions. apply (occurrences_unique mention_user).
    + apply recordMentions_NoDup. apply NoDup_nil_2.
    + apply recordMentions_users. by right.
Qed.

(** C6. Creating a document whose content holds two mention tokens that
    each resolve to a user leaves each of the two users once in
    [collaborators], with exactly one permission entry, at level view, and
    once in [mentions], however often the tokens occur in the content; the
    recorded mentions list no user twice. *)
Theorem create_shares_with_mentioned (store store' : gmap string Document)
    (newId : DocId) (user : AuthUser) (b : CreateBody) (now : Date)
    (d : Document) (t1 t2 : string) (u1 u2 : UserId) :
  createDocument charCount unitCount findUserByMention store newId user b now = (Ok d, store') →
  t1 ∈ mentionTokens (cb_content b) → t2 ∈ mentionTokens (cb_content b) →
  findUserByMention t1 = Some u1 → findUserByMention t2 = Some u2 →
  shared_once d u1 ∧ shared_once d u2 ∧ NoDup (mentionUsers d)
  ∧ store' !! newId = Some d.
Proof.
  unfold createDocument. intros Hc Ht1 Ht2 Hu1 Hu2.
  destruct (negb (validCreate charCount b)); [done|].
  destruct (store !! newId); [done|]. destruct (negb _); [done|].
  injection Hc as <- <-. split_and!.
  - apply createHandler_shared_once, list_elem_of_omap. eauto.
  - apply createHandler_shared_once, list_elem_of_omap. eauto.
  - rewrite createHandler_unfold. cbv zeta. unfold mentionUsers.
    rewrite grantMentioned_mentions.
    apply recordMentions_NoDup, NoDup_nil_2.
  - apply lookup_insert_eq.
Qed.

(** *** The update handler against the loaded document *)

Lemma updateHandler_spec d user b now :
  let d' := updateHandler findUserByMention d user b now in
  author d' = author d ∧ isDeleted d' = isDeleted d
  ∧ lastModifiedBy d' = Some (user_id user)
  ∧ ((title d' = title d ∧ content d' = content d
      ∧ versions d' = versions d ∧ currentVersion d' = currentVersion d)
     ∨ ((title d' ≠ title d ∨ content d' ≠ content d)
        ∧ versions d' =
            versions d ++
              [mkVersion (content d') (title d') (currentVersion d + 1)
                 (user_id user) now EmptyString]
        ∧ currentVersion d' = currentVersion d + 1)).
Proof.
  intros d'.
  destruct (updateHandler_after_mentions d user b now)
    as (_ & _ & _ & Ha & Hd & Hl & Hv). fold d' in Ha, Hd, Hl, Hv.
  destruct (afterMentions_sharing_only user b now d)
    as (Et & Ec & Ea & _ & _ & Ev & En & _ & _ & Ed).
  rewrite Et, Ec, Ev, En in Hv. rewrite Ea in Ha. rewrite Ed in Hd.
  done.
Qed.

Lemma updateDocument_Ok store user id b now d' store' :
  updateDocument castObjectId charCount unitCount findUserByMention store user id b now = (Ok d', store') →
  ∃ oid d, castObjectId id = Some oid ∧ store !! oid = Some d
       ∧ isDeleted d = false
       ∧ hasPermission d (user_id user) edit = true
       ∧ d' = updateHandler findUserByMention d user b now
       ∧ schemaValid unitCount d' = true
       ∧ store' = <[oid := d']> store.
Proof.
  unfold updateDocument. destruct (negb (validUpdate charCount b)); [done|].
  destruct (castObjectId id) as [oid|] eqn:Hoid; [|done].
  destruct (store !! oid) as [d|] eqn:Hd; [|done].
  destruct (isDeleted d) eqn:Hdel; [done|].
  destruct (hasPermission d (user_id user) edit) eqn:Hp; cbn [negb]; [|done].
  destruct (schemaValid unitCount _) eqn:Hv; cbn [negb]; [|done].
  intros [= <- <-]. exists oid, d. split_and!; done.
Qed.

Lemma createDocument_Ok store newId user b now d store' :
  createDocument charCount unitCount findUserByMention store newId user b now = (Ok d, store') →
  validCreate charCount b = true ∧ store !! newId = None
  ∧ d = createHandler findUserByMention user b now
  ∧ schemaValid unitCount d = true
  ∧ store' = <[newId := d]> store.
Proof.
  unfold createDocument. destruct (validCreate charCount b); simpl; [|done].
  destruct (store !! newId); [done|].
  destruct (schemaValid unitCount _) eqn:Hv; cbn [negb]; [|done].
  intros [= <- <-]. split_and!; done.
Qed.

(** Every user that the new content of an update mentions holds a view
    entry afterwards, also a user that held an edit or admin entry. *)
Lemma mention_grant_sets_view store user id b now d' store' c u :
  updateDocument castObjectId charCount unitCount findUserByMention store user id b now = (Ok d', store') →
  ub_content b = Some c → truthy c = true →
  u ∈ resolveMentions findUserByMention c →
  ∃ i p, findPermission u (permissions d') = Some (i, p)
         ∧ permission p = view.
Proof.
  intros Hu Hc Ht Hin.
  apply updateDocument_Ok in Hu as (oid & d & _ & _ & _ & _ & -> & _).
  destruct (updateHandler_after_mentions d user b now) as (-> & _).
  unfold afterMentions. rewrite Hc, Ht.
  by apply shareWithMentioned_level.
Qed.

Lemma updateDocument_Err store user id b now e store' :
  updateDocument castObjectId charCount unitCount findUserByMention store user id b
    now = (Err e, store') →
  store' = store.
Proof.
  unfold updateDocument. destruct (negb (validUpdate charCount b)); [congruence|].
  destruct (castObjectId id) as [oid|]; [|congruence].
  destruct (store !! oid) as [d|]; [|congruence].
  destruct (isDeleted d); [congruence|].
  destruct (negb _); [congruence|]. destruct (negb _); congruence.
Qed.

(** What a request can have done to a stored document. *)
Lemma handle_inv store r id d d' :
  store !! id = Some d →
  handle castObjectId charCount unitCount findUserByMention findUserByEmail
    isEmail store r !! id = Some d' →
  d' = d
  ∨ (∃ user id0 b now, r = ReqUpdate user id0 b now
       ∧ castObjectId id0 = Some id
       ∧ updateDocument castObjectId charCount unitCount findUserByMention store
           user id0 b now = (Ok d', <[id := d']> store)
       ∧ d' = updateHandler findUserByMention d user b now)
  ∨ (∃ user id0 now, r = ReqDelete user id0 now
       ∧ castObjectId id0 = Some id ∧ d' = set_isDeleted true d)
  ∨ (∃ user id0 email lvl now target, r = ReqGrant user id0 email lvl now
       ∧ castObjectId id0 = Some id
       ∧ d' = addCollaborator target lvl (user_id user) now d)
  ∨ (∃ user id0 u now, r = ReqRevoke user id0 u now
       ∧ castObjectId id0 = Some id
       ∧ d' = removeCollaborator u d).
Proof.
  intros Hd.
  destruct r as [newId user b now|user id0 b now|user id0 now
                |user id0 email lvl now|user id0 u now]; simpl.
  - unfold createDocument. destruct (negb (validCreate charCount b)); simpl;
      [left; congruence|].
    destruct (store !! newId) eqn:Hn; simpl; [left; congruence|].
    destruct (negb _); simpl; [left; congruence|].
    destruct (decide (newId = id)) as [->|Hne]; [congruence|].
    rewrite lookup_insert_ne by done. left; congruence.
  - destruct (updateDocument castObjectId charCount unitCount findUserByMention store
                user id0 b now) as [[dd|e] st] eqn:Hu; simpl.
    + destruct (updateDocument_Ok _ _ _ _ _ _ _ Hu)
        as (oid & d0 & Hoid & Hd0 & _ & _ & Hdd & _ & ->).
      destruct (decide (oid = id)) as [->|Hne].
      * rewrite lookup_insert_eq. intros [= <-]. right; left.
        exists user, id0, b, now. split_and!; [done|done|done|congruence].
      * rewrite lookup_insert_ne by done. left; congruence.
    + apply updateDocument_Err in Hu as ->. left; congruence.
  - unfold deleteDocument.
    destruct (castObjectId id0) as [oid|] eqn:Hoid; simpl;
      [|left; congruence].
    destruct (store !! oid) as [d0|] eqn:Hd0; simpl; [|left; congruence].
    destruct (isDeleted d0); simpl; [left; congruence|].
    destruct (notOwnerNorAdmin d0 user); simpl; [left; congruence|].
    destruct (negb _); simpl; [left; congruence|].
    destruct (decide (oid = id)) as [->|Hne].
    + rewrite lookup_insert_eq. intros [= <-]. right; right; left.
      exists user, id0, now. split_and!; [done|done|congruence].
    + rewrite lookup_insert_ne by done. left; congruence.
  - unfold grantCollaborator. destruct (negb (isEmail email)); simpl;
      [left; congruence|].
    destruct (castObjectId id0) as [oid|] eqn:Hoid; simpl;
      [|left; congruence].
    destruct (store !! oid) as [d0|] eqn:Hd0; simpl; [|left; congruence].
    destruct (isDeleted d0); simpl; [left; congruence|].
    destruct (notOwnerNorAdmin d0 user); simpl; [left; congruence|].
    destruct (findUserByEmail email) as [target|]; simpl; [|left; congruence].
    destruct (negb _); simpl; [left; congruence|].
    destruct (decide (oid = id)) as [->|Hne].
    + rewrite lookup_insert_eq. intros [= <-]. right; right; right; left.
      exists user, id0, email, lvl, now, target.
      split_and!; [done|done|congruence].
    + rewrite lookup_insert_ne by done. left; congruence.
  - unfold revokeCollaborator.
    destruct (castObjectId id0) as [oid|] eqn:Hoid; simpl;
      [|left; congruence].
    destruct (store !! oid) as [d0|] eqn:Hd0; simpl; [|left; congruence].
    destruct (isDeleted d0); simpl; [left; congruence|].
    destruct (notOwnerNorAdmin d0 user); simpl; [left; congruence|].
    destruct (negb _); simpl; [left; congruence|].
    destruct (decide (oid = id)) as [->|Hne].
    + rewrite lookup_insert_eq. intros [= <-]. right; right; right; right.
      exists user, id0, u, now. split_and!; [done|done|congruence].
    + rewrite lookup_insert_ne by done. left; congruence.
Qed.

(** ** The version recorder *)

(** What an update that changes the title or the content records. *)
Lemma updateDocument_new_version store store' user id oid b now d d' :
  castObjectId id = Some oid → store !! oid = Some d →
  updateDocument castObjectId charCount unitCount findUserByMention store user id b now = (Ok d', store') →
  title d' ≠ title d ∨ content d' ≠ content d →
  versions d' =
    versions d ++
      [mkVersion (content d') (title d') (currentVersion d + 1)
         (user_id user) now EmptyString]
  ∧ currentVersion d' = currentVersion d + 1.
Proof.
  intros Hoid Hd Hu Hch.
  apply updateDocument_Ok in Hu as (oid0 & d0 & Hoid0 & Hd0 & _ & _ & -> & _).
  assert (d0 = d) as -> by congruence.
  destruct (updateHandler_spec d user b now)
    as (_ & _ & _ & [(Ht & Hc & _)|(_ & Hv & Hn)]); [|done].
  destruct Hch; done.
Qed.

(** C2, as amended. An update of a stored document that changes its title
    or its content appends one version entry, which holds the title and
    the content as they are after the update (the submitted values, and
    the unchanged one as it was), numbered [currentVersion + 1] and
    created by the acting user; [currentVersion] becomes that number. *)
Theorem update_records_new_state (store store' : gmap string Document)
    (user : AuthUser) (id : string) (oid : DocId) (b : UpdateBody)
    (now : Date) (d d' : Document) :
  castObjectId id = Some oid → store !! oid = Some d →
  updateDocument castObjectId charCount unitCount findUserByMention store user id b now = (Ok d', store') →
  title d' ≠ title d ∨ content d' ≠ content d →
  records_new_state d d'
  ∧ versions d' =
      versions d ++
        [mkVersion (content d') (title d') (currentVersion d + 1)
           (user_id user) now EmptyString]
  ∧ currentVersion d' = currentVersion d + 1.
Proof.
  intros Hoid Hd Hu Hch.
  destruct (updateDocument_new_version _ _ _ _ _ _ _ _ _ Hoid Hd Hu Hch)
    as [Hv Hn].
  split_and!; try done. eexists. split; [exact Hv|done].
Qed.

(** C3, as amended. A created document has [currentVersion] 2 and one
    version entry, recorded when it is created, numbered 2, with the
    initial title and content; the first title or content edit after that
    appends the second entry, numbered 3. *)
Theorem create_records_first_version (store store' : gmap string Document)
    (newId : DocId) (user : AuthUser) (b : CreateBody) (now : Date)
    (d : Document) :
  createDocument charCount unitCount findUserByMention store newId user b now = (Ok d, store') →
  currentVersion d = 2
  ∧ versions d =
      [mkVersion (cb_content b) (cb_title b) 2 (user_id user) now EmptyString]
  ∧ title d = cb_title b ∧ content d = cb_content b
  ∧ ∀ (store1 store2 : gmap string Document) (d1 d2 : Document)
      (user2 : AuthUser) (id2 : string) (b2 : UpdateBody) (now2 : Date),
      castObjectId id2 = Some newId → store1 !! newId = Some d1 →
      versions d1 = versions d → currentVersion d1 = currentVersion d →
      updateDocument castObjectId charCount unitCount findUserByMention store1 user2 id2 b2 now2 = (Ok d2, store2) →
      title d2 ≠ title d1 ∨ content d2 ≠ content d1 →
      versions d2 =
        versions d ++
          [mkVersion (content d2) (title d2) 3 (user_id user2) now2 EmptyString]
      ∧ currentVersion d2 = 3.
Proof.
  intros Hc. apply createDocument_Ok in Hc as (_ & _ & -> & _).
  destruct (createHandler_sharing_only user b now)
    as (Et & Ec & _ & _ & _ & Ev & En & _).
  rewrite Et, Ec, Ev, En. simpl. split_and!; try done.
  intros store1 store2 d1 d2 user2 id2 b2 now2 Hoid Hd1 Hv1 Hn1 Hu Hch.
  destruct (updateDocument_new_version _ _ _ _ _ _ _ _ _ Hoid Hd1 Hu Hch)
    as (Hv & Hn).
  rewrite Hv1, Hn1 in *. done.
Qed.

(** C10. A request that leaves the title and the content of a stored
    document as they were (an update of status, privacy or tags, also one
    that submits the current title or content, with or without mention
    grants; a grant, a revocation, a deletion) appends nothing to
    [versions] and leaves [currentVersion] unchanged. *)
Theorem no_text_change_no_version (store : gmap string Document)
    (r : Request) (id : DocId) (d d' : Document) :
  store !! id = Some d →
  handle castObjectId charCount unitCount findUserByMention findUserByEmail isEmail store r !! id = Some d' →
  title d' = title d → content d' = content d →
  versions d' = versions d ∧ currentVersion d' = currentVersion d.
Proof.
  intros Hd Hh Ht Hc.
  destruct (handle_inv _ _ _ _ _ Hd Hh)
    as [->|[(user & id0 & b & now & -> & _ & _ & Hu)
       |[(user & id0 & now & -> & _ & ->)
       |[(user & id0 & email & lvl & now & target & -> & _ & ->)
        |(user & id0 & u & now & -> & _ & ->)]]]]; try done.
  subst d'.
  destruct (updateHandler_spec d user b now)
    as (_ & _ & _ & [(_ & _ & Hv & Hn)|(Hch & _)]); [done|].
  destruct Hch; done.
Qed.

(** ** The lifecycle controller *)

(** C9, as amended. [lastModifiedBy] is the acting user of the latest
    successful update, whatever fields that update changed, and the author
    if the document was not updated since it was created: creation sets it
    to the author; every successful update sets it to its acting user,
    also one that changes neither title nor content; the other requests,
    and the updates that are refused, leave it as it is. *)
Theorem lastModifiedBy_is_last_updater :
  (∀ (store store' : gmap string Document) newId user b now d,
     createDocument charCount unitCount findUserByMention store newId user b now = (Ok d, store') →
     lastModifiedBy d = Some (author d) ∧ author d = user_id user)
  ∧ (∀ (store store' : gmap string Document) user id b now d',
       updateDocument castObjectId charCount unitCount findUserByMention store user id b now = (Ok d', store') →
       lastModifiedBy d' = Some (user_id user))
  ∧ (∀ (store : gmap string Document) r id d d',
       store !! id = Some d →
       handle castObjectId charCount unitCount findUserByMention findUserByEmail isEmail store r !! id
         = Some d' →
       (∀ user id0 b now d2 store2,
          r = ReqUpdate user id0 b now →
          updateDocument castObjectId charCount unitCount findUserByMention store
            user id0 b now = (Ok d2, store2) →
          castObjectId id0 ≠ Some id) →
       lastModifiedBy d' = lastModifiedBy d).
Proof.
  split_and!.
  - intros store store' newId user b now d Hc.
    apply createDocument_Ok in Hc as (_ & _ & -> & _).
    destruct (createHandler_sharing_only user b now)
      as (_ & _ & Ea & _ & _ & _ & _ & _ & El & _).
    by rewrite Ea, El.
  - intros store store' user id b now d' Hu.
    apply updateDocument_Ok in Hu as (oid & d & _ & _ & _ & _ & -> & _).
    by destruct (updateHandler_spec d user b now) as (_ & _ & Hl & _).
  - intros store r id d d' Hd Hh Hr.
    destruct (handle_inv _ _ _ _ _ Hd Hh)
      as [->|[(user & id0 & b & now & -> & Hoid & Hok & Hu)
         |[(user & id0 & now & -> & _ & ->)
         |[(user & id0 & email & lvl & now & target & -> & _ & ->)
          |(user & id0 & u & now & -> & _ & ->)]]]]; try done.
    by destruct (Hr user id0 b now _ _ eq_refl Hok).
Qed.

End RouteFacts.

Section Deletion.

Variable castObjectId : string → option DocId.
Variable unitCount : string → nat.

(** C8, as amended. [deleteDocument] fails with NotFound when the id is
    an ObjectId and the document does not exist or is already
    soft-deleted (this is checked first), and with Forbidden when the
    document is there and the actor is neither its author nor a platform
    admin; an id that is not an ObjectId fails with an internal error
    (status 500) instead of NotFound; in all these cases nothing is
    written. Otherwise the document, which passes the validators of the
    schema as every document stored by the routes does, is stored with
    [isDeleted] true and every other field as it was. *)
Theorem deleteDocument_spec (store : gmap string Document) (user : AuthUser)
    (id : string) (now : Date) :
  (castObjectId id = None →
     deleteDocument castObjectId unitCount store user id now
       = (Err InternalError, store))
  ∧ (∀ oid, castObjectId id = Some oid → store !! oid = None →
       deleteDocument castObjectId unitCount store user id now
         = (Err NotFound, store))
  ∧ (∀ oid d, castObjectId id = Some oid → store !! oid = Some d →
       isDeleted d = true →
       deleteDocument castObjectId unitCount store user id now
         = (Err NotFound, store))
  ∧ (∀ oid d, castObjectId id = Some oid → store !! oid = Some d →
       isDeleted d = false →
       author d ≠ user_id user → role user ≠ role_admin →
       deleteDocument castObjectId unitCount store user id now
         = (Err Forbidden, store))
  ∧ (∀ oid d, castObjectId id = Some oid → store !! oid = Some d →
       isDeleted d = false →
       author d = user_id user ∨ role user = role_admin →
       schemaValid unitCount d = true →
       ∃ d', deleteDocument castObjectId unitCount store user id now
               = (Ok (), <[oid := d']> store)
             ∧ isDeleted d' = true ∧ same_data d d').
Proof.
  unfold deleteDocument, notOwnerNorAdmin. split_and!.
  - by intros ->.
  - by intros oid -> ->.
  - by intros oid d -> -> ->.
  - intros oid d -> -> -> Ha Hr.
    by rewrite !bool_decide_eq_true_2.
  - intros oid d -> -> -> Hor Hv. exists (set_isDeleted true d).
    split_and!; [|done|by unfold same_data].
    assert (bool_decide (author d ≠ user_id user)
            && bool_decide (role user ≠ role_admin) = false) as ->.
    { destruct Hor as [Ha|Hr].
      - by rewrite (bool_decide_eq_false_2 (author d ≠ user_id user)) by tauto.
      - rewrite (bool_decide_eq_false_2 (role user ≠ role_admin)) by tauto.
        apply andb_false_r. }
    change (fields (save now (on_fields (set_isDeleted true) (hydrate d))))
      with (set_isDeleted true d).
    change (schemaValid unitCount (set_isDeleted true d))
      with (schemaValid unitCount d).
    by rewrite Hv.
Qed.

End Deletion.


(** ** The scenario, checked *)

Lemma hasPermission_spec_witness :
  hasPermission annDoc "bbbb00000000000000000002" edit = true
  ∧ hasPermission annDoc "bbbb00000000000000000002" admin ≠ true
  ∧ ∀ r, hasPermission annDoc "a11ce0000000000000000003" r = false.
Proof.
  assert (NoDup (permissionUsers annDoc)) as Hnd.
  { apply (bool_decide_unpack _). vm_compute. exact I. }
  split_and!.
  - apply (proj1 (hasPermission_spec annDoc "bbbb00000000000000000002" edit
                    Hnd)).
    right; right. exists (mkPermission "bbbb00000000000000000002" edit
                            "aaaa00000000000000000001" 6).
    split_and!; [apply list_elem_of_here|reflexivity|reflexivity].
  - intros H.
    apply (proj1 (hasPermission_spec annDoc "bbbb00000000000000000002" admin
                    Hnd)) in H.
    destruct H as [[H _]|[H|(p & Hp & _ & Hc)]]; [discriminate H|discriminate H|].
    apply list_elem_of_singleton in Hp. subst p. discriminate Hc.
  - apply (proj2 (proj2 (hasPermission_spec annDoc "a11ce0000000000000000003"
                           view Hnd))).
    + reflexivity.
    + discriminate.
    + apply (bool_decide_unpack _). vm_compute. exact I.
Defined.

Lemma collaborators_mirror_permissions_witness :
  ∃ d, run castHex utf8Chars utf16Units directory byEmail anyEmail history !! "d0c000000000000000000001"%string = Some d
       ∧ collaborators d = ["a11ce0000000000000000003"; "bbbb00000000000000000002"]%string
       ∧ NoDup (collaborators d) ∧ NoDup (permissionUsers d)
       ∧ ∀ u, u ∈ collaborators d ↔ u ∈ permissionUsers d.
Proof.
  eexists. split; [vm_compute; reflexivity|]. split; [reflexivity|].
  apply (collaborators_mirror_permissions castHex utf8Chars utf16Units
           directory byEmail anyEmail history "d0c000000000000000000001").
  vm_compute. reflexivity.
Defined.

Lemma create_shares_with_mentioned_witness :
  let d := createHandler directory ann welcome 5 in
  shared_once d "a11ce0000000000000000003" ∧ shared_once d "bbbb00000000000000000002" ∧ NoDup (mentionUsers d)
  ∧ (<["d0c000000000000000000001"%string := d]> ∅ : gmap string Document) !! "d0c000000000000000000001"%string
    = Some d.
Proof.
  apply (create_shares_with_mentioned utf8Chars utf16Units directory ∅ _
           "d0c000000000000000000001" ann welcome 5 _
           "alice" "bob" "a11ce0000000000000000003" "bbbb00000000000000000002").
  - vm_compute. reflexivity.
  - apply (bool_decide_unpack _). vm_compute. exact I.
  - apply (bool_decide_unpack _). vm_compute. exact I.
  - reflexivity.
  - reflexivity.
Defined.

Lemma deleteDocument_spec_witness :
  deleteDocument castHex utf16Units library ann "not-an-objectid" 9
    = (Err InternalError, library)
  ∧ deleteDocument castHex utf16Units library ann "d0c000000000000000000002" 9
    = (Err NotFound, library)
  ∧ deleteDocument castHex utf16Units binned ann "d0c000000000000000000001" 9
    = (Err NotFound, binned)
  ∧ deleteDocument castHex utf16Units library bob "d0c000000000000000000001" 9
    = (Err Forbidden, library)
  ∧ ∃ d', deleteDocument castHex utf16Units library ann "d0c000000000000000000001" 9
          = (Ok (), <["d0c000000000000000000001"%string := d']> library)
        ∧ isDeleted d' = true ∧ same_data annDoc d'.
Proof.
  split_and!.
  - apply (proj1 (deleteDocument_spec castHex utf16Units library ann
                    "not-an-objectid" 9)).
    reflexivity.
  - apply (proj1 (proj2 (deleteDocument_spec castHex utf16Units library ann
                           "d0c000000000000000000002" 9))
             "d0c000000000000000000002"); reflexivity.
  - apply (proj1 (proj2 (proj2 (deleteDocument_spec castHex utf16Units binned
                                  ann "d0c000000000000000000001" 9)))
             "d0c000000000000000000001" (set_isDeleted true annDoc));
      reflexivity.
  - apply (proj1 (proj2 (proj2 (proj2
             (deleteDocument_spec castHex utf16Units library bob
                "d0c000000000000000000001" 9))))
             "d0c000000000000000000001" annDoc);
      [reflexivity|reflexivity|reflexivity|discriminate|discriminate].
  - apply (proj2 (proj2 (proj2 (proj2
             (deleteDocument_spec castHex utf16Units library ann
                "d0c000000000000000000001" 9))))
             "d0c000000000000000000001" annDoc);
      [reflexivity|reflexivity|reflexivity|left; reflexivity|reflexivity].
Defined.

Lemma no_text_change_no_version_witness :
  ∃ d', handle castHex utf8Chars utf16Units directory byEmail anyEmail library (ReqUpdate bob "d0c000000000000000000001" publish 7)
          !! "d0c000000000000000000001"%string = Some d'
        ∧ status d' = published
        ∧ versions d' = versions annDoc
        ∧ currentVersion d' = currentVersion annDoc.
Proof.
  eexists. split; [vm_compute; reflexivity|]. split; [reflexivity|].
  apply (no_text_change_no_version castHex utf8Chars utf16Units directory
           byEmail anyEmail library
           (ReqUpdate bob "d0c000000000000000000001" publish 7) "d0c000000000000000000001" annDoc).
  - reflexivity.
  - vm_compute. reflexivity.
  - reflexivity.
  - reflexivity.
Defined.

Lemma update_records_new_state_witness :
  ∃ d', (updateDocument castHex utf8Chars utf16Units directory library ann "d0c000000000000000000001" retitle 9).1 = Ok d'
        ∧ records_new_state annDoc d'
        ∧ versions d' =
            versions annDoc ++
              [mkVersion "Old body" "New title" 3 "aaaa00000000000000000001" 9 EmptyString]
        ∧ currentVersion d' = currentVersion annDoc + 1.
Proof.
  eexists. split; [vm_compute; reflexivity|].
  apply (update_records_new_state castHex utf8Chars utf16Units directory
           library
           (updateDocument castHex utf8Chars utf16Units directory library ann "d0c000000000000000000001" retitle 9).2
           ann "d0c000000000000000000001" "d0c000000000000000000001" retitle 9
           annDoc).
  - reflexivity.
  - reflexivity.
  - vm_compute. reflexivity.
  - left. apply (bool_decide_unpack _). vm_compute. exact I.
Defined.

Lemma create_records_first_version_witness :
  let d := createHandler directory ann welcome 5 in
  currentVersion d = 2
  ∧ versions d =
      [mkVersion (cb_content welcome) (cb_title welcome) 2 "aaaa00000000000000000001" 5 EmptyString]
  ∧ title d = cb_title welcome ∧ content d = cb_content welcome.
Proof.
  intros d.
  destruct (create_records_first_version castHex utf8Chars utf16Units
              directory ∅
              (<["d0c000000000000000000001"%string := d]> ∅) "d0c000000000000000000001" ann welcome 5 d)
    as (H1 & H2 & H3 & H4 & _).
  - vm_compute. reflexivity.
  - exact (conj H1 (conj H2 (conj H3 H4))).
Defined.

Lemma lastModifiedBy_is_last_updater_witness :
  (∃ d', (updateDocument castHex utf8Chars utf16Units directory library bob "d0c000000000000000000001" publish 7).1 = Ok d'
         ∧ lastModifiedBy d' = Some "bbbb00000000000000000002"%string)
  ∧ (∃ d', handle castHex utf8Chars utf16Units directory byEmail anyEmail
             library (ReqUpdate alice "d0c000000000000000000001" retitle 9)
             !! "d0c000000000000000000001"%string = Some d'
           ∧ lastModifiedBy d' = lastModifiedBy annDoc).
Proof.
  split.
  - eexists. split; [vm_compute; reflexivity|].
    apply (proj1 (proj2 (lastModifiedBy_is_last_updater castHex utf8Chars
                           utf16Units directory byEmail anyEmail))
             library (updateDocument castHex utf8Chars utf16Units directory library bob "d0c000000000000000000001" publish 7).2
             bob "d0c000000000000000000001" publish 7).
    vm_compute. reflexivity.
  - eexists. split; [vm_compute; reflexivity|].
    apply (proj2 (proj2 (lastModifiedBy_is_last_updater castHex utf8Chars
                           utf16Units directory byEmail anyEmail))
             library (ReqUpdate alice "d0c000000000000000000001" retitle 9)
             "d0c000000000000000000001" annDoc).
    + reflexivity.
    + vm_compute. reflexivity.
    + intros user id0 b now d2 store2 [= <- <- <- <-] Hok.
      vm_compute in Hok. discriminate Hok.
Defined.

(** ** Where the code departs from the specification *)

(** C2, as stated, fails: when Ann retitles her document, the entry
    appended holds the new title, not the title before the edit. *)
Lemma update_does_not_record_prior_state :
  ∃ d', (updateDocument castHex utf8Chars utf16Units directory library ann "d0c000000000000000000001" retitle 9).1 = Ok d'
        ∧ title d' ≠ title annDoc
        ∧ last (versions d')
          = Some (mkVersion "Old body" "New title" 3 "aaaa00000000000000000001" 9 EmptyString)
        ∧ ¬ records_prior_state annDoc d'.
Proof.
  eexists. split; [vm_compute; reflexivity|]. split_and!.
  - discriminate.
  - reflexivity.
  - intros (e & Hv & Ht & _). simpl in Hv.
    injection Hv as <-. discriminate.
Qed.

(** C3, as stated, fails: the document just created has [currentVersion]
    2 and one version entry, and its first edit is numbered 3. *)
Lemma create_does_not_start_at_version_one :
  ∃ d store',
    createDocument utf8Chars utf16Units directory ∅ "d0c000000000000000000001" ann welcome 5 = (Ok d, store')
    ∧ ¬ (currentVersion d = 1 ∧ versions d = [])
    ∧ currentVersion d = 2 ∧ length (versions d) = 1
    ∧ ∃ d', (updateDocument castHex utf8Chars utf16Units directory store' ann "d0c000000000000000000001" retitle 9).1 = Ok d'
            ∧ versionNumber <$> versions d' = [2; 3].
Proof.
  eexists. eexists. split; [vm_compute; reflexivity|]. split_and!.
  - intros [H _]. discriminate.
  - reflexivity.
  - reflexivity.
  - eexists. split; [vm_compute; reflexivity|]. reflexivity.
Qed.

(** C8, as stated, fails: no document has the id [not-an-objectid], and a
    request to delete it is answered with an internal error (status 500),
    not with NotFound. *)
Lemma delete_unknown_id_is_not_NotFound :
  library !! "not-an-objectid"%string = None
  ∧ deleteDocument castHex utf16Units library ann "not-an-objectid" 9
    = (Err InternalError, library)
  ∧ deleteDocument castHex utf16Units library ann "not-an-objectid" 9
    ≠ (Err NotFound, library).
Proof. split_and!; [reflexivity|reflexivity|discriminate]. Qed.

(** C9, as stated, fails: Ann wrote the title and the content and nobody
    changed them; after Bob publishes the document (a status update),
    [lastModifiedBy] is Bob. *)
Lemma status_update_sets_lastModifiedBy :
  ∃ d0 d,
    run castHex utf8Chars utf16Units directory byEmail anyEmail (take 2 history) !! "d0c000000000000000000001"%string = Some d0
    ∧ run castHex utf8Chars utf16Units directory byEmail anyEmail history !! "d0c000000000000000000001"%string = Some d
    ∧ title d = title d0 ∧ content d = content d0
    ∧ author d = "aaaa00000000000000000001"%string
    ∧ lastModifiedBy d0 = Some "aaaa00000000000000000001"%string
    ∧ lastModifiedBy d = Some "bbbb00000000000000000002"%string
    ∧ lastModifiedBy d ≠ lastModifiedBy d0.
Proof.
  eexists. eexists. split; [vm_compute; reflexivity|].
  split; [vm_compute; reflexivity|].
  split_and!; try reflexivity. discriminate.
Qed.

(** C4 fails on the code: Bob holds an edit entry; Ann saves a content
    that mentions him; his entry is then at level view and he may no
    longer edit. *)
Theorem mention_downgrades_editor :
  ∃ d', (updateDocument castHex utf8Chars utf16Units directory library ann "d0c000000000000000000001" pingBob 9).1 = Ok d'
        ∧ permissions annDoc = [mkPermission "bbbb00000000000000000002" edit "aaaa00000000000000000001" 6]
        ∧ resolveMentions directory "Ping @bob" = ["bbbb00000000000000000002"%string]
        ∧ permissions d' = [mkPermission "bbbb00000000000000000002" view "aaaa00000000000000000001" 9]
        ∧ hasPermission annDoc "bbbb00000000000000000002" edit = true
        ∧ hasPermission d' "bbbb00000000000000000002" edit = false.
Proof.
  eexists. split; [vm_compute; reflexivity|].
  split_and!; reflexivity.
Qed.

(** * Further properties of the model and of the routes *)

(** ** Levels, grants and revocations *)

Lemma hasPermission_view d u :
  hasPermission d u view = true ↔
    privacy d = public ∨ u = author d ∨ u ∈ permissionUsers d.
Proof.
  rewrite hasPermission_first_entry. split.
  - intros [[? _]|[?|(i & p & Hf & _)]]; [tauto|tauto|].
    apply findPermission_Some in Hf as [Hi <-]. right; right.
    by eapply list_elem_of_fmap_2, list_elem_of_lookup_2.
  - intros [?|[?|Hin]]; [by left|by right; left|]. right; right.
    destruct (findPermission u (permissions d)) as [[i p]|] eqn:Hf.
    + exists i, p. split; [done|]. destruct (permission p); simpl; lia.
    + by apply findPermission_None in Hf.
Qed.

(** X1. Access is downward closed in the level: who may act at a level
    may act at every lower one. *)
Theorem hasPermission_downward (d : Document) (u : UserId) (r r' : Level) :
  permissionLevels r' ≤ permissionLevels r →
  hasPermission d u r = true → hasPermission d u r' = true.
Proof.
  intros Hle. rewrite !hasPermission_first_entry.
  intros [[Hp ->]|[Ha|(i & p & Hf & Hl)]].
  - left. split; [done|]. destruct r'; simpl in Hle; [done|lia|lia].
  - by right; left.
  - right; right. exists i, p. split; [done|lia].
Qed.

Lemma hasPermission_downward_witness :
  hasPermission annDoc "bbbb00000000000000000002" view = true.
Proof.
  apply (hasPermission_downward annDoc "bbbb00000000000000000002" edit view).
  - simpl. lia.
  - reflexivity.
Defined.

Lemma addCollaborator_allows u lvl g now d r :
  permissionLevels r ≤ permissionLevels lvl →
  hasPermission (addCollaborator u lvl g now d) u r = true.
Proof.
  intros Hle. apply hasPermission_first_entry. right; right.
  destruct (addCollaborator_entry u lvl g now d) as [i Hi].
  by exists i, (mkPermission u lvl g now).
Qed.

(** X2. A grant takes effect whatever entries the document held: after
    [addCollaborator] the user may act exactly at the levels up to the
    one granted (beside what the public flag and authorship give). *)
Theorem addCollaborator_grants (d : Document) (u g : UserId) (lvl r : Level)
    (now : Date) :
  hasPermission (addCollaborator u lvl g now d) u r = true ↔
    (privacy d = public ∧ r = view) ∨ u = author d
    ∨ permissionLevels r ≤ permissionLevels lvl.
Proof.
  rewrite hasPermission_first_entry.
  destruct (addCollaborator_entry u lvl g now d) as [i Hi].
  rewrite Hi. change (privacy (addCollaborator u lvl g now d)) with (privacy d).
  change (author (addCollaborator u lvl g now d)) with (author d).
  do 2 apply or_iff_compat_l. split.
  - by intros (j & p & [= <- <-] & Hle).
  - intros Hle. by exists i, (mkPermission u lvl g now).
Qed.

(** [hasPermission] reads the entry that [find] returns, not its index. *)
Lemma hasPermission_ext d d' u r :
  privacy d' = privacy d → author d' = author d →
  snd <$> findPermission u (permissions d')
    = snd <$> findPermission u (permissions d) →
  hasPermission d' u r = hasPermission d u r.
Proof.
  unfold hasPermission. intros -> -> Hf.
  destruct (findPermission u (permissions d')) as [[i p]|],
    (findPermission u (permissions d)) as [[j q]|]; simpl in Hf;
    try discriminate; try (injection Hf as ->); reflexivity.
Qed.

Lemma snd_shift {A} (o : option (nat * A)) :
  snd <$> (prod_map S id <$> o) = snd <$> o.
Proof. by destruct o as [[i x]|]. Qed.

Lemma findPermission_filter_other u v (ps : list Permission) :
  v ≠ u →
  snd <$> findPermission v (filter (λ p, perm_user p ≠ u) ps)
  = snd <$> findPermission v ps.
Proof.
  intros Hne. unfold findPermission.
  induction ps as [|a ps IH]; [done|].
  rewrite filter_cons. destruct (decide (perm_user a ≠ u)) as [Ha|Ha]; simpl.
  - destruct (decide (perm_user a = v)); [done|].
    by rewrite !snd_shift.
  - rewrite decide_False by (intros Hv; apply Ha; congruence).
    by rewrite snd_shift.
Qed.

(** X3. Granting to a user or revoking a user changes nothing to what
    the other users may do. *)
Theorem grant_revoke_leave_others (d : Document) (u v g : UserId)
    (lvl r : Level) (now : Date) :
  v ≠ u →
  hasPermission (addCollaborator u lvl g now d) v r = hasPermission d v r
  ∧ hasPermission (removeCollaborator u d) v r = hasPermission d v r.
Proof.
  intros Hne. split; apply hasPermission_ext; try done.
  - by rewrite addCollaborator_other.
  - by apply findPermission_filter_other.
Qed.

Lemma grant_revoke_leave_others_witness :
  hasPermission (addCollaborator "a11ce0000000000000000003" admin "aaaa00000000000000000001" 8 annDoc) "bbbb00000000000000000002" edit
    = hasPermission annDoc "bbbb00000000000000000002" edit
  ∧ hasPermission (removeCollaborator "a11ce0000000000000000003" annDoc) "bbbb00000000000000000002" edit
    = hasPermission annDoc "bbbb00000000000000000002" edit.
Proof.
  apply (grant_revoke_leave_others annDoc "a11ce0000000000000000003" "bbbb00000000000000000002" "aaaa00000000000000000001" admin edit 8).
  apply (bool_decide_unpack _). vm_compute. exact I.
Defined.

Lemma removeCollaborator_absent u d :
  (u ∉ permissionUsers (removeCollaborator u d))
  ∧ (u ∉ collaborators (removeCollaborator u d)).
Proof.
  rewrite removeCollaborator_users. unfold removeCollaborator; simpl.
  rewrite !list_elem_of_filter. tauto.
Qed.

Lemma hasPermission_no_entry d u r :
  u ≠ author d → u ∉ permissionUsers d →
  (hasPermission d u r = true ↔ privacy d = public ∧ r = view).
Proof.
  intros Ha Hno. rewrite hasPermission_first_entry.
  apply findPermission_None in Hno. rewrite Hno. split.
  - intros [?|[?|(i & p & ? & _)]]; done.
  - by left.
Qed.

Lemma removeCollaborator_denies u d r :
  u ≠ author d → privacy d = private →
  hasPermission (removeCollaborator u d) u r = false.
Proof.
  intros Ha Hp. apply not_true_is_false.
  destruct (removeCollaborator_absent u d) as [Hno _].
  rewrite (hasPermission_no_entry (removeCollaborator u d) u r Ha Hno).
  change (privacy (removeCollaborator u d)) with (privacy d).
  intros [? _]. congruence.
Qed.

(** X4. A revocation takes every access of the user that came from an
    entry: afterwards the user, unless the author, may only view, and
    only a public document. *)
Theorem removeCollaborator_revokes (d : Document) (u : UserId) (r : Level) :
  u ≠ author d →
  (hasPermission (removeCollaborator u d) u r = true ↔
     privacy d = public ∧ r = view).
Proof.
  intros Hna. rewrite hasPermission_first_entry.
  destruct (removeCollaborator_absent u d) as [Hno _].
  apply findPermission_None in Hno. rewrite Hno.
  change (privacy (removeCollaborator u d)) with (privacy d).
  change (author (removeCollaborator u d)) with (author d). split.
  - intros [?|[?|(i & p & ? & _)]]; done.
  - by left.
Qed.

Lemma removeCollaborator_revokes_witness :
  hasPermission (removeCollaborator "bbbb00000000000000000002" annDoc) "bbbb00000000000000000002" view = true ↔
    privacy annDoc = public ∧ view = view.
Proof.
  apply (removeCollaborator_revokes annDoc "bbbb00000000000000000002" view).
  apply (bool_decide_unpack _). vm_compute. exact I.
Defined.

Lemma filter_all {A} (P : A → Prop) `{!∀ x, Decision (P x)} (l : list A) :
  Forall P l → filter P l = l.
Proof.
  induction 1 as [|a l Ha Hl IH]; [done|].
  rewrite filter_cons_True by done. by rewrite IH.
Qed.

Lemma removeCollaborator_noop u d :
  u ∉ permissionUsers d → u ∉ collaborators d → removeCollaborator u d = d.
Proof.
  intros Hp Hc. unfold removeCollaborator.
  rewrite (filter_all (λ p, perm_user p ≠ u)), (filter_all (λ c, c ≠ u)).
  - by destruct d.
  - apply Forall_forall. intros c Hin ->. done.
  - apply Forall_forall. intros p Hin Hu. apply Hp. rewrite <- Hu.
    by apply list_elem_of_fmap_2.
Qed.

(** X5. Revoking a user that holds nothing changes nothing, and revoking
    after a grant to such a user gives the document back as it was. *)
Theorem revoke_undoes_fresh_grant (d : Document) (u g : UserId) (lvl : Level)
    (now : Date) :
  u ∉ permissionUsers d → u ∉ collaborators d →
  removeCollaborator u d = d
  ∧ removeCollaborator u (addCollaborator u lvl g now d) = d.
Proof.
  intros Hp Hc. split; [by apply removeCollaborator_noop|].
  unfold addCollaborator.
  apply findPermission_None in Hp as Hf. rewrite Hf.
  rewrite decide_False by done.
  unfold removeCollaborator; simpl. rewrite !filter_app.
  rewrite (filter_all (λ p, perm_user p ≠ u)), (filter_all (λ c, c ≠ u)).
  - rewrite !filter_cons_False, !filter_nil, !app_nil_r by (simpl; tauto).
    by destruct d.
  - apply Forall_forall. intros c Hin ->. done.
  - apply Forall_forall. intros p Hin Hu. apply Hp. rewrite <- Hu.
    by apply list_elem_of_fmap_2.
Qed.

Lemma revoke_undoes_fresh_grant_witness :
  removeCollaborator "a11ce0000000000000000003" annDoc = annDoc
  ∧ removeCollaborator "a11ce0000000000000000003" (addCollaborator "a11ce0000000000000000003" edit "aaaa00000000000000000001" 8 annDoc)
    = annDoc.
Proof.
  apply (revoke_undoes_fresh_grant annDoc "a11ce0000000000000000003" "aaaa00000000000000000001" edit 8).
  - apply (bool_decide_unpack _). vm_compute. exact I.
  - apply (bool_decide_unpack _). vm_compute. exact I.
Defined.

(** ** Mentions *)

Lemma addMention_mentioned u t d :
  u ∈ mentionUsers d → addMention u t d = d.
Proof.
  intros Hin. unfold addMention.
  destruct (list_find _ (mentions d)) as [[i m]|] eqn:Hf; [done|].
  apply list_find_None in Hf. rewrite Forall_forall in Hf.
  apply list_elem_of_fmap in Hin as [m [-> Hm]]. by destruct (Hf m Hm).
Qed.

Lemma addMention_prefix u t d :
  mentions d `prefix_of` mentions (addMention u t d).
Proof.
  unfold addMention. destruct (list_find _ (mentions d)); simpl; [done|].
  by apply prefix_app_r.
Qed.

(** X6. The first mention of a user is the one kept: mentioning a user
    that is already recorded changes nothing (the date of the first
    mention stays), and a mention only ever appends to [mentions]. *)
Theorem addMention_first_wins (d : Document) (u : UserId) (t1 t2 : Date) :
  (u ∈ mentionUsers d → addMention u t1 d = d)
  ∧ addMention u t2 (addMention u t1 d) = addMention u t1 d
  ∧ mentions d `prefix_of` mentions (addMention u t1 d).
Proof.
  split_and!.
  - apply addMention_mentioned.
  - apply addMention_mentioned. rewrite addMention_users.
    apply snoc_unless_member_elem. by right.
  - apply addMention_prefix.
Qed.

Lemma wordOnly_snoc t c :
  wordOnly (t +:+ String c EmptyString) = wordOnly t && isWordChar c.
Proof.
  induction t as [|a t IH]; simpl.
  - by rewrite andb_true_r.
  - by rewrite IH, andb_assoc.
Qed.

Lemma scanMentions_tokens s cur x :
  (∀ t, cur = Some t → wordOnly t = true) →
  x ∈ scanMentions cur s → x ≠ EmptyString ∧ wordOnly x = true.
Proof.
  revert cur. induction s as [|c s IH]; intros cur Hcur; simpl.
  - destruct cur as [t|]; simpl; [|by intros ?%elem_of_nil].
    unfold emitToken. destruct (decide (t = EmptyString)).
    + by intros ?%elem_of_nil.
    + intros ->%list_elem_of_singleton. split; [done|by apply Hcur].
  - destruct cur as [t|].
    + destruct (isWordChar c) eqn:Hc.
      * apply IH. intros t' [= <-]. rewrite wordOnly_snoc, Hc.
        by rewrite (Hcur t).
      * rewrite elem_of_app. intros [Hx|Hx].
        -- unfold emitToken in Hx. destruct (decide (t = EmptyString)).
           ++ by apply elem_of_nil in Hx.
           ++ apply list_elem_of_singleton in Hx as ->.
              split; [done|by apply Hcur].
        -- revert Hx. apply IH. unfold startToken.
           destruct (Ascii.eqb c "@"); [|done]. by intros t' [= <-].
    + apply IH. unfold startToken.
      destruct (Ascii.eqb c "@"); [|done]. by intros t' [= <-].
Qed.

(** X7. Every mention token is a non-empty run of word characters
    (letters, digits, underscore): the ["@"] and any other character are
    never part of a token. *)
Theorem mentionTokens_wordOnly (content t : string) :
  t ∈ mentionTokens content → t ≠ EmptyString ∧ wordOnly t = true.
Proof. apply scanMentions_tokens. done. Qed.

Lemma mentionTokens_wordOnly_witness :
  "bob"%string ≠ EmptyString ∧ wordOnly "bob" = true.
Proof.
  apply (mentionTokens_wordOnly "Welcome @alice and @bob, thanks @alice" "bob").
  apply (bool_decide_unpack _). vm_compute. exact I.
Defined.

Lemma string_app_nil_r (s : string) : s +:+ EmptyString = s.
Proof.
  induction s as [|c s IH]; [done|].
  change (String c (s +:+ EmptyString) = String c s). by rewrite IH.
Qed.

Lemma string_app_snoc (s t : string) c :
  (s +:+ String c EmptyString) +:+ t = s +:+ String c t.
Proof.
  induction s as [|a s IH]; [done|].
  change (String a ((s +:+ String c EmptyString) +:+ t)
          = String a (s +:+ String c t)).
  by rewrite IH.
Qed.

Lemma scanMentions_word acc t :
  wordOnly t = true → scanMentions (Some acc) t = emitToken (acc +:+ t).
Proof.
  revert acc. induction t as [|c t IH]; intros acc Hw.
  - by rewrite string_app_nil_r.
  - simpl in Hw. apply andb_true_iff in Hw as [Hc Ht].
    rewrite <- string_app_snoc. cbn [scanMentions]. rewrite Hc.
    by apply IH.
Qed.

Lemma scanMentions_trailing s t cur :
  wordOnly t = true → t ≠ EmptyString →
  ∃ pre, scanMentions cur (s +:+ String "@" t) = pre ++ [t].
Proof.
  intros Hw Hne. revert cur. induction s as [|c s IH]; intros cur.
  - change (EmptyString +:+ String "@" t) with (String "@" t).
    assert (scanMentions (Some EmptyString) t = [t]) as Ht.
    { rewrite scanMentions_word by done.
      change (EmptyString +:+ t) with t. unfold emitToken.
      by rewrite decide_False. }
    destruct cur as [t0|]; simpl;
      change (startToken "@") with (Some EmptyString); rewrite Ht;
      [|by exists []].
    by exists (emitToken t0).
  - change (String c s +:+ String "@" t) with (String c (s +:+ String "@" t)).
    cbn [scanMentions]. destruct cur as [t0|].
    + destruct (isWordChar c); [apply IH|].
      destruct (IH (startToken c)) as [pre ->].
      exists (emitToken t0 ++ pre). by rewrite app_assoc.
    + apply IH.
Qed.

(** X8. A mention at the end of the content is found, whatever precedes
    it: for a non-empty run [t] of word characters, the last token of
    [... @t] is [t]. *)
Theorem mention_at_end_is_found (s t : string) :
  wordOnly t = true → t ≠ EmptyString →
  last (mentionTokens (s +:+ String "@" t)) = Some t.
Proof.
  intros Hw Hne. unfold mentionTokens.
  destruct (scanMentions_trailing s t None Hw Hne) as [pre ->].
  apply last_snoc.
Qed.

Lemma mention_at_end_is_found_witness :
  last (mentionTokens ("mail a@b.c, cc @" +:+ String "@" "bob_2")) = Some "bob_2"%string.
Proof.
  apply (mention_at_end_is_found "mail a@b.c, cc @" "bob_2").
  - reflexivity.
  - apply (bool_decide_unpack _). vm_compute. exact I.
Defined.

Lemma addMention_first_wins_witness :
  addMention "bbbb00000000000000000002" 9 (addMention "bbbb00000000000000000002" 4 annDoc) = addMention "bbbb00000000000000000002" 4 annDoc
  ∧ mentions (addMention "bbbb00000000000000000002" 9 (addMention "bbbb00000000000000000002" 4 annDoc))
    = [mkMention "bbbb00000000000000000002" 4].
Proof.
  split; [|reflexivity].
  apply (proj1 (addMention_first_wins (addMention "bbbb00000000000000000002" 4 annDoc) "bbbb00000000000000000002" 9 9)).
  apply (bool_decide_unpack _). vm_compute. exact I.
Defined.

(** ** Reading the versions *)

Section ReadFacts.

Variable castObjectId : string → option DocId.

(** X9. Who may read the version history: [GET /:id/versions] answers
    with the versions of the document exactly when the id is the ObjectId
    of a stored document that is not deleted and is either public or
    requested by its author or by a user that holds an entry of any
    level; a missing or deleted document is reported not found whoever
    asks, before the permission is looked at; an id that is not an
    ObjectId is answered with an internal error (status 500). *)
Theorem getVersions_spec (store : gmap string Document) (user : AuthUser)
    (id : string) :
  (∀ vs, getVersions castObjectId store user id = Ok vs ↔
     ∃ oid d, castObjectId id = Some oid ∧ store !! oid = Some d
          ∧ isDeleted d = false ∧ vs = versions d
          ∧ (privacy d = public ∨ user_id user = author d
             ∨ user_id user ∈ permissionUsers d))
  ∧ (getVersions castObjectId store user id = Err NotFound ↔
       ∃ oid, castObjectId id = Some oid
              ∧ (store !! oid = None
                 ∨ ∃ d, store !! oid = Some d ∧ isDeleted d = true))
  ∧ (getVersions castObjectId store user id = Err InternalError ↔
       castObjectId id = None).
Proof.
  unfold getVersions. destruct (castObjectId id) as [oid|].
  2: { split_and!; [intros vs| |]; (split; [done|]); try done.
       - by intros (oid & d & ? & _).
       - by intros (oid & ? & _). }
  destruct (store !! oid) as [d|] eqn:Hd.
  2: { split_and!; [intros vs| |]; split; try done.
       - intros (oid0 & d & [= <-] & ? & _). congruence.
       - intros _. exists oid. split; [done|by left]. }
  destruct (isDeleted d) eqn:Hdel.
  { split_and!; [intros vs| |]; split; try done.
    - intros (oid0 & d0 & [= <-] & ? & ? & _). congruence.
    - intros _. exists oid. split; [done|]. right. by exists d. }
  destruct (hasPermission d (user_id user) view) eqn:Hv; simpl.
  - apply hasPermission_view in Hv. split_and!; [intros vs| |]; split;
      try done.
    + intros [= <-]. by exists oid, d.
    + intros (oid0 & d0 & [= <-] & ? & _ & -> & _). congruence.
    + intros (oid0 & [= <-] & [?|(d0 & ? & ?)]); congruence.
  - split_and!; [intros vs| |]; split; try done.
    + intros (oid0 & d0 & [= <-] & ? & _ & _ & Hv').
      assert (d0 = d) as -> by congruence.
      apply hasPermission_view in Hv'. congruence.
    + intros (oid0 & [= <-] & [?|(d0 & ? & ?)]); congruence.
Qed.

Lemma getVersions_Ok store user id oid d :
  castObjectId id = Some oid →
  store !! oid = Some d → isDeleted d = false →
  hasPermission d (user_id user) view = true →
  getVersions castObjectId store user id = Ok (versions d).
Proof. unfold getVersions. by intros -> -> -> ->. Qed.

End ReadFacts.

(** ** Listings and searches *)

Lemma accessClause_view u d :
  accessClause u d = true ↔ hasPermission d u view = true.
Proof.
  unfold accessClause, holdsEntry.
  rewrite hasPermission_view, !orb_true_iff, !bool_decide_eq_true.
  split; intros [[?|?]|?] || intros [?|[?|?]]; eauto.
Qed.

Lemma whenGiven_None {A} `{EqDecision A} (x : A) : whenGiven None x = true.
Proof. done. Qed.

Section QueryFacts.

Variable castObjectId : string → option DocId.
Variable textSearch : string → Document → bool.

Lemma matching_lookup (query : Document → bool) store id d :
  matching query store !! id = Some d ↔ store !! id = Some d ∧ query d = true.
Proof. unfold matching. by rewrite map_lookup_filter_Some. Qed.

Lemma listQuery_readable user st q d :
  listQuery textSearch user st q d = true →
  isDeleted d = false ∧ hasPermission d (user_id user) view = true.
Proof.
  unfold listQuery. rewrite !andb_true_iff, negb_true_iff, accessClause_view.
  tauto.
Qed.

(** X10. The list of [GET /api/documents] and the permission check
    agree: without status and search filters, the documents listed for a
    user are exactly the stored, live documents that the user may view
    (those whose versions [GET /:id/versions] gives to the user); with
    filters, every document listed is one of them. *)
Theorem listed_iff_viewable (store : gmap string Document) (user : AuthUser)
    (id : DocId) (d : Document) :
  (matching (listQuery textSearch user None None) store !! id = Some d ↔
     store !! id = Some d ∧ isDeleted d = false
     ∧ hasPermission d (user_id user) view = true)
  ∧ (∀ st q id0, castObjectId id0 = Some id →
       matching (listQuery textSearch user st q) store !! id = Some d →
       getVersions castObjectId store user id0 = Ok (versions d)).
Proof.
  split.
  - rewrite matching_lookup. apply and_iff_compat_l.
    unfold listQuery. simpl.
    by rewrite !andb_true_r, andb_true_iff, negb_true_iff, accessClause_view.
  - intros st q id0 Hoid. rewrite matching_lookup.
    intros [Hd [Hdel Hv]%listQuery_readable].
    by apply (getVersions_Ok _ _ _ _ id).
Qed.

(** X11. A search shows nothing that the caller may not view: every
    document that [GET /api/search/documents] matches is live; for a
    signed-in caller it is one the caller may view; for an anonymous
    caller it is public, whatever privacy filter the request carries. *)
Theorem search_results_viewable (store : gmap string Document)
    (user : option AuthUser) (q : string) (st : option Status)
    (pf : option Privacy) (id : DocId) (d : Document) :
  matching (searchQuery textSearch user q st pf) store !! id = Some d →
  store !! id = Some d ∧ isDeleted d = false
  ∧ match user with
    | Some u => hasPermission d (user_id u) view = true
    | None => privacy d = public
    end.
Proof.
  rewrite matching_lookup. unfold searchQuery.
  rewrite !andb_true_iff, negb_true_iff.
  intros (Hd & ((_ & Hdel) & _) & Hu). split_and!; try done.
  destruct user as [u|].
  - by apply andb_true_iff in Hu as [_ Hv%accessClause_view].
  - by apply bool_decide_eq_true in Hu.
Qed.

End QueryFacts.

(** X12. The documents of a user, as [GET /api/users/:id/documents]
    selects them: live documents of that author only; a viewer that is
    neither the user nor an admin gets the public ones only, so whatever
    is listed for a viewer that is not an admin is a document that this
    viewer may view. *)
Theorem userDocuments_viewable (store : gmap string Document)
    (viewer : AuthUser) (ownerId : UserId) (st : option Status) (id : DocId)
    (d : Document) :
  matching (userDocumentsQuery viewer ownerId st) store !! id = Some d →
  author d = ownerId ∧ isDeleted d = false
  ∧ (role viewer ≠ role_admin →
     hasPermission d (user_id viewer) view = true
     ∧ (ownerId ≠ user_id viewer → privacy d = public)).
Proof.
  unfold matching. rewrite map_lookup_filter_Some. simpl.
  unfold userDocumentsQuery.
  rewrite !andb_true_iff, negb_true_iff. intros (Hd & (Hdel & Hq) & _).
  assert (author d = ownerId) as Ha.
  { destruct (_ || _) in Hq; [|apply andb_true_iff in Hq as [Hq _]];
      by apply bool_decide_eq_true in Hq. }
  split_and!; try done. intros Hr.
  rewrite (bool_decide_eq_false_2 (role viewer = role_admin)) in Hq by done.
  rewrite orb_false_r in Hq. case_bool_decide as Hself.
  - split; [|done]. apply hasPermission_view. right; left. congruence.
  - apply andb_true_iff in Hq as [_ Hp%bool_decide_eq_true].
    split; [|done]. apply hasPermission_view. by left.
Qed.

(** ** Requests, one at a time *)

Lemma notOwnerNorAdmin_false d user :
  notOwnerNorAdmin d user = false →
  author d = user_id user ∨ role user = role_admin.
Proof.
  unfold notOwnerNorAdmin. intros [H|H]%andb_false_iff;
    apply bool_decide_eq_false in H.
  - left. by destruct (decide (author d = user_id user)).
  - right. by destruct (decide (role user = role_admin)).
Qed.

Lemma deleteUserCascade_lookup target (store : gmap string Document) id :
  deleteUserCascade target store !! id
  = afterUserDeletion target <$> store !! id.
Proof.
  unfold deleteUserCascade. rewrite !lookup_fmap.
  by destruct (store !! id).
Qed.

Lemma afterUserDeletion_frame target d :
  let d' := afterUserDeletion target d in
  title d' = title d ∧ content d' = content d ∧ author d' = author d
  ∧ status d' = status d ∧ privacy d' = privacy d
  ∧ versions d' = versions d ∧ currentVersion d' = currentVersion d
  ∧ tags d' = tags d ∧ mentions d' = mentions d
  ∧ lastModifiedBy d' = lastModifiedBy d
  ∧ isDeleted d' = isDeleted d || bool_decide (author d = target).
Proof.
  unfold afterUserDeletion.
  destruct (bool_decide (author d = target)); simpl;
    destruct (holdsEntry _ _); simpl; rewrite ?orb_true_r, ?orb_false_r;
    done.
Qed.

Lemma afterUserDeletion_users target d :
  permissionUsers (afterUserDeletion target d)
    = filter (λ c, c ≠ target) (permissionUsers d)
  ∧ (synced d → synced (afterUserDeletion target d)).
Proof.
  unfold afterUserDeletion.
  set (d1 := if bool_decide (author d = target) then set_isDeleted true d
             else d).
  assert (permissions d1 = permissions d ∧ collaborators d1 = collaborators d)
    as [Hp Hc] by (unfold d1; by destruct (bool_decide _)).
  assert (permissionUsers d1 = permissionUsers d) as Hu
    by (unfold permissionUsers; by rewrite Hp).
  assert (synced d → synced d1) as Hs
    by (unfold synced; by rewrite Hu, Hc).
  unfold holdsEntry. case_bool_decide as Hin.
  - rewrite removeCollaborator_users, Hu. split; [done|].
    intros ?. by apply removeCollaborator_synced, Hs.
  - rewrite Hu. split; [|done]. symmetry. apply filter_all.
    apply Forall_forall. intros c Hc' ->. apply Hin. by rewrite Hu.
Qed.

(** X13. Deleting a user: every document stays stored; the documents of
    the user are marked deleted and no other; the user holds no
    permission entry any more and is listed in no collaboration; title,
    content, versions and mentions are untouched; what the other users
    may do is unchanged; and on the documents of others the deleted user
    keeps no access beyond viewing what is public. *)
Theorem deleteUserCascade_effect (store : gmap string Document)
    (target : UserId) (id : DocId) (d : Document) :
  store !! id = Some d →
  ∃ d', deleteUserCascade target store !! id = Some d'
    ∧ isDeleted d' = isDeleted d || bool_decide (author d = target)
    ∧ (target ∉ permissionUsers d')
    ∧ collaborationsQuery target d' = false
    ∧ title d' = title d ∧ content d' = content d ∧ author d' = author d
    ∧ versions d' = versions d ∧ currentVersion d' = currentVersion d
    ∧ mentions d' = mentions d
    ∧ (∀ v r, v ≠ target → hasPermission d' v r = hasPermission d v r)
    ∧ (author d ≠ target →
       ∀ r, hasPermission d' target r = true ↔ privacy d = public ∧ r = view).
Proof.
  intros Hd. exists (afterUserDeletion target d).
  rewrite deleteUserCascade_lookup, Hd.
  destruct (afterUserDeletion_frame target d)
    as (Ht & Hc & Ha & _ & Hp & Hv & Hn & _ & Hm & _ & Hdel).
  destruct (afterUserDeletion_users target d) as [Hu _].
  assert (target ∉ permissionUsers (afterUserDeletion target d)) as Hno.
  { rewrite Hu, list_elem_of_filter. tauto. }
  split_and!; try done.
  - unfold collaborationsQuery, holdsEntry.
    by rewrite bool_decide_eq_false_2.
  - intros v r Hne. apply hasPermission_ext; try done.
    unfold afterUserDeletion.
    assert (∀ d0, snd <$> findPermission v
                    (permissions (if holdsEntry target d0
                                  then removeCollaborator target d0 else d0))
                  = snd <$> findPermission v (permissions d0)) as Hf.
    { intros d0. destruct (holdsEntry target d0); [|done].
      by apply findPermission_filter_other. }
    rewrite Hf. by destruct (bool_decide (author d = target)).
  - intros Hna r. rewrite <- Hp. apply hasPermission_no_entry; [|done].
    by rewrite Ha.
Qed.

Lemma deleteUserCascade_effect_witness :
  ∃ d', deleteUserCascade "bbbb00000000000000000002" library !! "d0c000000000000000000001"%string = Some d'
    ∧ isDeleted d' = false
    ∧ permissions d' = [] ∧ collaborators d' = []
    ∧ hasPermission d' "bbbb00000000000000000002" view = false.
Proof.
  destruct (deleteUserCascade_effect library "bbbb00000000000000000002" "d0c000000000000000000001" annDoc)
    as (d' & Hd' & _); [reflexivity|].
  exists d'. split; [exact Hd'|].
  vm_compute in Hd'. injection Hd' as <-. repeat split.
Defined.

Section EventFacts.

Variable castObjectId : string → option DocId.
Variable charCount : string → nat.
Variable unitCount : string → nat.
Variable findUserByMention : string → option UserId.
Variable findUserByEmail : string → option UserId.
Variable isEmail : string → bool.
Variable userExists : UserId → bool.

(** What a request to the documents router can have done to a stored
    document, with what allowed it. *)
Lemma handle_cases store r id d d' :
  store !! id = Some d →
  handle castObjectId charCount unitCount findUserByMention findUserByEmail
    isEmail store r !! id = Some d' →
  d' = d
  ∨ (isDeleted d = false ∧ schemaValid unitCount d' = true
     ∧ ((∃ id0 b now, r = ReqUpdate (requester r) id0 b now
           ∧ castObjectId id0 = Some id
           ∧ validUpdate charCount b = true
           ∧ hasPermission d (user_id (requester r)) edit = true
           ∧ d' = updateHandler findUserByMention d (requester r) b now)
        ∨ (notOwnerNorAdmin d (requester r) = false
           ∧ ((∃ id0 now, r = ReqDelete (requester r) id0 now
                 ∧ castObjectId id0 = Some id
                 ∧ d' = set_isDeleted true d)
              ∨ (∃ id0 email lvl now target,
                   r = ReqGrant (requester r) id0 email lvl now
                   ∧ castObjectId id0 = Some id
                   ∧ d' = addCollaborator target lvl
                            (user_id (requester r)) now d)
              ∨ (∃ id0 u now, r = ReqRevoke (requester r) id0 u now
                   ∧ castObjectId id0 = Some id
                   ∧ d' = removeCollaborator u d))))).
Proof.
  intros Hd.
  destruct r as [newId user b now|user id0 b now|user id0 now
                |user id0 email lvl now|user id0 u now]; simpl.
  - unfold createDocument. destruct (negb (validCreate charCount b)); simpl;
      [left; congruence|].
    destruct (store !! newId) eqn:Hn; simpl; [left; congruence|].
    destruct (negb _); simpl; [left; congruence|].
    destruct (decide (newId = id)) as [->|Hne]; [congruence|].
    rewrite lookup_insert_ne by done. left; congruence.
  - unfold updateDocument. destruct (validUpdate charCount b) eqn:Hv; simpl;
      [|left; congruence].
    destruct (castObjectId id0) as [oid|] eqn:Hoid; simpl;
      [|left; congruence].
    destruct (store !! oid) as [d0|] eqn:Hd0; simpl; [|left; congruence].
    destruct (isDeleted d0) eqn:Hdel; simpl; [left; congruence|].
    destruct (hasPermission d0 (user_id user) edit) eqn:Hp; simpl;
      [|left; congruence].
    destruct (schemaValid unitCount _) eqn:Hsv; simpl; [|left; congruence].
    destruct (decide (oid = id)) as [->|Hne].
    + rewrite lookup_insert_eq. intros [= <-].
      assert (d0 = d) as -> by congruence. right. split_and!; [done|done|].
      left. by exists id0, b, now.
    + rewrite lookup_insert_ne by done. left; congruence.
  - unfold deleteDocument.
    destruct (castObjectId id0) as [oid|] eqn:Hoid; simpl;
      [|left; congruence].
    destruct (store !! oid) as [d0|] eqn:Hd0; simpl; [|left; congruence].
    destruct (isDeleted d0) eqn:Hdel; simpl; [left; congruence|].
    destruct (notOwnerNorAdmin d0 user) eqn:Ho; simpl; [left; congruence|].
    destruct (schemaValid unitCount _) eqn:Hsv; simpl; [|left; congruence].
    destruct (decide (oid = id)) as [->|Hne].
    + rewrite lookup_insert_eq. intros [= <-].
      assert (d0 = d) as -> by congruence. right. split_and!; [done|done|].
      right. split; [done|]. left. by exists id0, now.
    + rewrite lookup_insert_ne by done. left; congruence.
  - unfold grantCollaborator. destruct (negb (isEmail email)); simpl;
      [left; congruence|].
    destruct (castObjectId id0) as [oid|] eqn:Hoid; simpl;
      [|left; congruence].
    destruct (store !! oid) as [d0|] eqn:Hd0; simpl; [|left; congruence].
    destruct (isDeleted d0) eqn:Hdel; simpl; [left; congruence|].
    destruct (notOwnerNorAdmin d0 user) eqn:Ho; simpl; [left; congruence|].
    destruct (findUserByEmail email) as [target|]; simpl; [|left; congruence].
    destruct (schemaValid unitCount _) eqn:Hsv; simpl; [|left; congruence].
    destruct (decide (oid = id)) as [->|Hne].
    + rewrite lookup_insert_eq. intros [= <-].
      assert (d0 = d) as -> by congruence. right. split_and!; [done|done|].
      right. split; [done|]. right; left.
      by exists id0, email, lvl, now, target.
    + rewrite lookup_insert_ne by done. left; congruence.
  - unfold revokeCollaborator.
    destruct (castObjectId id0) as [oid|] eqn:Hoid; simpl;
      [|left; congruence].
    destruct (store !! oid) as [d0|] eqn:Hd0; simpl; [|left; congruence].
    destruct (isDeleted d0) eqn:Hdel; simpl; [left; congruence|].
    destruct (notOwnerNorAdmin d0 user) eqn:Ho; simpl; [left; congruence|].
    destruct (schemaValid unitCount _) eqn:Hsv; simpl; [|left; congruence].
    destruct (decide (oid = id)) as [->|Hne].
    + rewrite lookup_insert_eq. intros [= <-].
      assert (d0 = d) as -> by congruence. right. split_and!; [done|done|].
      right. split; [done|]. right; right. by exists id0, u, now.
    + rewrite lookup_insert_ne by done. left; congruence.
Qed.

(** A request stores at most one document and removes none. *)
Lemma handle_shape store r :
  handle castObjectId charCount unitCount findUserByMention findUserByEmail
    isEmail store r = store
  ∨ ∃ id x, handle castObjectId charCount unitCount findUserByMention
              findUserByEmail isEmail store r
            = <[id := x]> store.
Proof.
  destruct r as [newId user b now|user id0 b now|user id0 now
                |user id0 email lvl now|user id0 u now]; simpl.
  - unfold createDocument. destruct (negb _); [by left|].
    destruct (store !! newId); [by left|].
    destruct (negb _); [by left|]. right. eauto.
  - unfold updateDocument. destruct (negb _); [by left|].
    destruct (castObjectId id0) as [oid|]; [|by left].
    destruct (store !! oid) as [d0|]; [|by left].
    destruct (isDeleted d0); [by left|]. destruct (negb _); [by left|].
    destruct (negb _); [by left|]. right. eauto.
  - unfold deleteDocument.
    destruct (castObjectId id0) as [oid|]; [|by left].
    destruct (store !! oid) as [d0|]; [|by left].
    destruct (isDeleted d0); [by left|].
    destruct (notOwnerNorAdmin d0 user); [by left|].
    destruct (negb _); [by left|]. right. eauto.
  - unfold grantCollaborator. destruct (negb _); [by left|].
    destruct (castObjectId id0) as [oid|]; [|by left].
    destruct (store !! oid) as [d0|]; [|by left].
    destruct (isDeleted d0); [by left|].
    destruct (notOwnerNorAdmin d0 user); [by left|].
    destruct (findUserByEmail email); [|by left].
    destruct (negb _); [by left|]. right. eauto.
  - unfold revokeCollaborator.
    destruct (castObjectId id0) as [oid|]; [|by left].
    destruct (store !! oid) as [d0|]; [|by left].
    destruct (isDeleted d0); [by left|].
    destruct (notOwnerNorAdmin d0 user); [by left|].
    destruct (negb _); [by left|]. right. eauto.
Qed.

Lemma handle_persists store r id d :
  store !! id = Some d →
  is_Some (handle castObjectId charCount unitCount findUserByMention findUserByEmail isEmail store r !! id).
Proof.
  intros Hd. destruct (handle_shape store r) as [->|(id0 & x & ->)]; [eauto|].
  destruct (decide (id0 = id)) as [->|Hne].
  - rewrite lookup_insert_eq. eauto.
  - rewrite lookup_insert_ne by done. eauto.
Qed.

(** What an event can have done to a stored document. *)
Lemma apply_cases store e id d :
  store !! id = Some d →
  ∃ d', apply castObjectId charCount unitCount findUserByMention
          findUserByEmail isEmail userExists store e !! id = Some d'
    ∧ ((∃ r, e = DocumentRequest r
          ∧ handle castObjectId charCount unitCount findUserByMention
              findUserByEmail isEmail store r !! id
            = Some d')
       ∨ (∃ actor target, e = UserDeletion actor target
            ∧ (d' = d
               ∨ ∃ uid, castObjectId target = Some uid
                        ∧ d' = afterUserDeletion uid d))).
Proof.
  intros Hd. destruct e as [r|actor target]; simpl.
  - destruct (handle_persists store r id d Hd) as [d' Hd'].
    exists d'. split; [done|]. left. by exists r.
  - unfold deleteUser. destruct (castObjectId target) as [uid|] eqn:Huid; simpl.
    2: { exists d. split; [done|]. right. exists actor, target.
         by split; [|left]. }
    destruct (negb (userExists uid)); simpl.
    { exists d. split; [done|]. right. exists actor, target. by split; [|left]. }
    destruct (bool_decide (uid = user_id actor)); simpl.
    { exists d. split; [done|]. right. exists actor, target. by split; [|left]. }
    exists (afterUserDeletion uid d).
    rewrite deleteUserCascade_lookup, Hd. split; [done|]. right.
    exists actor, target. split; [done|]. right. by exists uid.
Qed.

End EventFacts.

Lemma shareWithMentioned_mentions_prefix l actor now d :
  mentions d `prefix_of` mentions (shareWithMentioned l actor now d).
Proof.
  unfold shareWithMentioned. revert d.
  induction l as [|u l IH]; simpl; intros d; [done|].
  etrans; [|apply IH]. apply addMention_prefix.
Qed.

Lemma shareWithMentioned_mentionUsers_NoDup l actor now d :
  NoDup (mentionUsers d) →
  NoDup (mentionUsers (shareWithMentioned l actor now d)).
Proof.
  unfold shareWithMentioned. revert d.
  induction l as [|u l IH]; simpl; intros d Hd; [done|].
  apply IH.
  change (mentionUsers (addCollaborator u view actor now (addMention u now d)))
    with (mentionUsers (addMention u now d)).
  rewrite addMention_users. by apply snoc_unless_member_NoDup.
Qed.

Section StepProperties.

Variable castObjectId : string → option DocId.
Variable charCount : string → nat.
Variable unitCount : string → nat.
Variable findUserByMention : string → option UserId.
Variable findUserByEmail : string → option UserId.
Variable isEmail : string → bool.
Variable userExists : UserId → bool.

Lemma updateHandler_mentions d user b now :
  mentions d `prefix_of`
    mentions (updateHandler findUserByMention d user b now)
  ∧ (NoDup (mentionUsers d) →
     NoDup (mentionUsers (updateHandler findUserByMention d user b now))).
Proof.
  destruct (updateHandler_after_mentions findUserByMention d user b now)
    as (_ & _ & Hm & _).
  unfold mentionUsers. rewrite Hm. unfold afterMentions.
  destruct (ub_content b) as [c|]; [destruct (truthy c)|]; try done.
  split; [apply shareWithMentioned_mentions_prefix|].
  apply shareWithMentioned_mentionUsers_NoDup.
Qed.

(** What every event keeps of a stored document. *)
Lemma apply_step store e id d :
  store !! id = Some d →
  ∃ d', apply castObjectId charCount unitCount findUserByMention
          findUserByEmail isEmail userExists store e !! id = Some d'
    ∧ author d' = author d
    ∧ versions d `prefix_of` versions d'
    ∧ mentions d `prefix_of` mentions d'
    ∧ (isDeleted d = true →
       isDeleted d' = true ∧ ∀ r, e = DocumentRequest r → d' = d).
Proof.
  intros Hd.
  destruct (apply_cases castObjectId charCount unitCount findUserByMention
              findUserByEmail isEmail userExists store e id d Hd)
    as (d' & Hd' & [(r & -> & Hh)|(actor & target & -> & Hc)]).
  - exists d'. split; [done|].
    destruct (handle_cases castObjectId charCount unitCount findUserByMention
                findUserByEmail isEmail store r id d d' Hd Hh)
      as [->|(Hlive & _ & [(id0 & b & now & _ & _ & _ & _ & ->)
                      |(_ & [(id0 & now & _ & _ & ->)
                            |[(id0 & email & lvl & now & target & _ & _ & ->)
                             |(id0 & u & now & _ & _ & ->)]])])].
    + split_and!; try done.
    + destruct (updateHandler_spec findUserByMention d (requester r) b now)
        as (Ha & _ & _ & Hv).
      destruct (updateHandler_mentions d (requester r) b now) as [Hm _].
      split_and!; try done; [|intros ?; congruence].
      destruct Hv as [(_ & _ & -> & _)|(_ & -> & _)];
        [done|by apply prefix_app_r].
    + split_and!; try done. intros ?; congruence.
    + split_and!; try done. intros ?; congruence.
    + split_and!; try done. intros ?; congruence.
  - exists d'. split; [done|]. destruct Hc as [->|(uid & _ & ->)].
    + split_and!; try done.
    + destruct (afterUserDeletion_frame uid d)
        as (_ & _ & Ha & _ & _ & Hv & _ & _ & Hm & _ & Hdel).
      rewrite Ha, Hv, Hm, Hdel. split_and!; try done.
      intros ->. split; [done|]. by intros r.
Qed.

(** X14. No event removes a document from the collection or changes its
    author. *)
Theorem documents_persist (store : gmap string Document) (e : Event)
    (id : DocId) (d : Document) :
  store !! id = Some d →
  ∃ d', apply castObjectId charCount unitCount findUserByMention findUserByEmail isEmail userExists store e
          !! id = Some d'
        ∧ author d' = author d.
Proof.
  intros Hd. destruct (apply_step store e id d Hd) as (d' & ? & ? & _).
  by exists d'.
Qed.

(** X15. The histories only grow: after any event the version entries
    and the mentions of a stored document start with those it had, in
    the same order and unmodified. *)
Theorem histories_append_only (store : gmap string Document) (e : Event)
    (id : DocId) (d d' : Document) :
  store !! id = Some d →
  apply castObjectId charCount unitCount findUserByMention findUserByEmail isEmail userExists store e !! id
    = Some d' →
  versions d `prefix_of` versions d' ∧ mentions d `prefix_of` mentions d'.
Proof.
  intros Hd Hd'.
  destruct (apply_step store e id d Hd) as (d'' & Hd'' & _ & ? & ? & _).
  by assert (d'' = d') as -> by congruence.
Qed.

(** X16. Deletion is a latch: a deleted document stays deleted under
    every event, and no request to the documents router changes anything
    of it. *)
Theorem deleted_stays_deleted (store : gmap string Document) (e : Event)
    (id : DocId) (d d' : Document) :
  store !! id = Some d → isDeleted d = true →
  apply castObjectId charCount unitCount findUserByMention findUserByEmail isEmail userExists store e !! id
    = Some d' →
  isDeleted d' = true ∧ ∀ r, e = DocumentRequest r → d' = d.
Proof.
  intros Hd Hdel Hd'.
  destruct (apply_step store e id d Hd) as (d'' & Hd'' & _ & _ & _ & H).
  assert (d'' = d') as -> by congruence. by apply H.
Qed.

(** X17. Without the right to edit there is no way to write: a request
    to the documents router from a user that may not edit a stored
    document, and is not an admin, leaves that document as it is. *)
Theorem unauthorized_request_changes_nothing (store : gmap string Document)
    (r : Request) (id : DocId) (d : Document) :
  store !! id = Some d →
  hasPermission d (user_id (requester r)) edit = false →
  role (requester r) ≠ role_admin →
  handle castObjectId charCount unitCount findUserByMention findUserByEmail isEmail store r !! id = Some d.
Proof.
  intros Hd Hno Hrole.
  destruct (handle_persists castObjectId charCount unitCount findUserByMention
              findUserByEmail isEmail store r id d Hd) as [d' Hd'].
  rewrite Hd'. f_equal.
  destruct (handle_cases castObjectId charCount unitCount findUserByMention
              findUserByEmail isEmail store r id d d' Hd Hd')
    as [->|(_ & _ & [(id0 & b & now & _ & _ & _ & Hp & _)|(Ho & _)])];
    [done|congruence|].
  apply notOwnerNorAdmin_false in Ho as [Ha|Ha]; [|done].
  assert (hasPermission d (user_id (requester r)) edit = true); [|congruence].
  apply hasPermission_first_entry. by right; left.
Qed.

(** X18. Deleting a document and granting or revoking an entry are
    reserved to the author and the admins: from any other user, also one
    that may edit, only an update can change a stored document. *)
Theorem only_owner_or_admin_manages (store : gmap string Document)
    (r : Request) (id : DocId) (d : Document) :
  store !! id = Some d →
  notOwnerNorAdmin d (requester r) = true →
  (∀ id0 b now,
     r = ReqUpdate (requester r) id0 b now → castObjectId id0 ≠ Some id) →
  handle castObjectId charCount unitCount findUserByMention findUserByEmail isEmail store r !! id = Some d.
Proof.
  intros Hd Hno Hr.
  destruct (handle_persists castObjectId charCount unitCount findUserByMention
              findUserByEmail isEmail store r id d Hd) as [d' Hd'].
  rewrite Hd'. f_equal.
  destruct (handle_cases castObjectId charCount unitCount findUserByMention
              findUserByEmail isEmail store r id d d' Hd Hd')
    as [->|(_ & _ & [(id0 & b & now & Hu & Hoid & _)|(Ho & _)])];
    [done| |congruence].
  by destruct (Hr id0 b now).
Qed.

End StepProperties.

(** ** What holds of every stored document *)

Lemma versioned_frame d d' :
  title d' = title d → content d' = content d →
  versions d' = versions d → currentVersion d' = currentVersion d →
  versioned d → versioned d'.
Proof. unfold versioned. by intros -> -> -> ->. Qed.

Lemma versioned_snoc d d' e :
  versions d' = versions d ++ [e] →
  versionNumber e = currentVersion d + 1 →
  currentVersion d' = currentVersion d + 1 →
  ver_title e = title d' → ver_content e = content d' →
  versioned d → versioned d'.
Proof.
  unfold versioned. intros Hv He Hcv' Ht Hc (Hn & Hcv & _).
  assert (length (versions d') = S (length (versions d))) as Hlen.
  { rewrite Hv, length_app. simpl. lia. }
  rewrite Hlen. split_and!.
  - rewrite Hv, fmap_app, Hn, seq_S. f_equal. simpl. f_equal.
    rewrite He, Hcv. lia.
  - lia.
  - exists e. rewrite Hv. by rewrite last_snoc.
Qed.

Lemma truthy_true s : truthy s = true ↔ s ≠ EmptyString.
Proof.
  unfold truthy. by rewrite negb_true_iff, bool_decide_eq_false.
Qed.

Section Invariants.

Variable castObjectId : string → option DocId.
Variable charCount : string → nat.
Variable unitCount : string → nat.
Variable findUserByMention : string → option UserId.
Variable findUserByEmail : string → option UserId.
Variable isEmail : string → bool.
Variable userExists : UserId → bool.

Lemma schemaValid_frame d d' :
  title d' = title d → content d' = content d → versions d' = versions d →
  schemaValid unitCount d' = schemaValid unitCount d.
Proof. unfold schemaValid. by intros -> -> ->. Qed.

Lemma schemaValid_true d :
  schemaValid unitCount d = true ↔
    title d ≠ EmptyString ∧ unitCount (title d) ≤ 200
    ∧ content d ≠ EmptyString
    ∧ ∀ v, v ∈ versions d →
           ver_content v ≠ EmptyString ∧ ver_title v ≠ EmptyString.
Proof.
  unfold schemaValid.
  rewrite !andb_true_iff, !truthy_true, bool_decide_eq_true, forallb_forall.
  split.
  - intros (((Ht & Hl) & Hc) & Hv). split_and!; try done.
    intros v Hin. apply list_elem_of_In, Hv in Hin.
    apply andb_true_iff in Hin. by rewrite !truthy_true in Hin.
  - intros (Ht & Hl & Hc & Hv). split_and!; try done.
    intros v Hin. apply list_elem_of_In, Hv in Hin.
    apply andb_true_iff. by rewrite !truthy_true.
Qed.


Lemma wellFormed_frame d d' :
  title d' = title d → content d' = content d →
  versions d' = versions d → currentVersion d' = currentVersion d →
  mentions d' = mentions d → synced d' →
  wellFormed unitCount d → wellFormed unitCount d'.
Proof.
  intros Ht Hc Hv Hn Hm Hs (_ & Hver & Hmen & Htext).
  split_and!; [done|by eapply versioned_frame| |].
  - unfold mentionUsers. by rewrite Hm.
  - by rewrite (schemaValid_frame d d').
Qed.

Lemma createHandler_wellFormed user b now :
  schemaValid unitCount (createHandler findUserByMention user b now) = true →
  wellFormed unitCount (createHandler findUserByMention user b now).
Proof.
  intros Hv.
  destruct (createHandler_sharing_only findUserByMention user b now)
    as (Et & Ec & _ & _ & _ & Ev & En & _).
  split_and!; [| | |done].
  - apply createHandler_synced.
  - unfold versioned. rewrite Ev, En, Et, Ec. simpl. split_and!; try done.
    by eexists.
  - rewrite createHandler_unfold. cbv zeta. unfold mentionUsers.
    rewrite grantMentioned_mentions.
    apply recordMentions_NoDup, NoDup_nil_2.
Qed.

Lemma updateHandler_wellFormed d user b now :
  schemaValid unitCount (updateHandler findUserByMention d user b now) = true →
  wellFormed unitCount d →
  wellFormed unitCount (updateHandler findUserByMention d user b now).
Proof.
  intros Hv (Hs & Hver & Hmen & Htext).
  split_and!; [| | |done].
  - by apply updateHandler_synced.
  - destruct (updateHandler_spec findUserByMention d user b now)
      as (_ & _ & _ & [(Et & Ec & Ev & En)|(_ & Ev & En)]).
    + by eapply versioned_frame.
    + by eapply versioned_snoc.
  - by apply updateHandler_mentions.
Qed.

Lemma afterUserDeletion_wellFormed target d :
  wellFormed unitCount d → wellFormed unitCount (afterUserDeletion target d).
Proof.
  intros Hw.
  destruct (afterUserDeletion_frame target d)
    as (Ht & Hc & _ & _ & _ & Hv & Hn & _ & Hm & _).
  apply (wellFormed_frame d); try done.
  apply afterUserDeletion_users. by destruct Hw.
Qed.

(** A document that a request stores under a free id is a created one. *)
Lemma handle_new store r id d' :
  store !! id = None →
  handle castObjectId charCount unitCount findUserByMention findUserByEmail
    isEmail store r !! id = Some d' →
  ∃ user b now, validCreate charCount b = true
    ∧ schemaValid unitCount d' = true
    ∧ d' = createHandler findUserByMention user b now.
Proof.
  intros Hd.
  destruct r as [newId user b now|user id0 b now|user id0 now
                |user id0 email lvl now|user id0 u now]; simpl.
  - unfold createDocument. destruct (validCreate charCount b) eqn:Hv; simpl;
      [|congruence].
    destruct (store !! newId) eqn:Hn; simpl; [congruence|].
    destruct (schemaValid unitCount _) eqn:Hsv; simpl; [|congruence].
    destruct (decide (newId = id)) as [->|Hne].
    + rewrite lookup_insert_eq. intros [= <-]. by exists user, b, now.
    + rewrite lookup_insert_ne by done. congruence.
  - unfold updateDocument. destruct (negb _); simpl; [congruence|].
    destruct (castObjectId id0) as [oid|]; simpl; [|congruence].
    destruct (store !! oid) as [d0|] eqn:Hd0; simpl; [|congruence].
    destruct (isDeleted d0); simpl; [congruence|].
    destruct (negb _); simpl; [congruence|].
    destruct (negb _); simpl; [congruence|].
    rewrite lookup_insert_ne by congruence. congruence.
  - unfold deleteDocument.
    destruct (castObjectId id0) as [oid|]; simpl; [|congruence].
    destruct (store !! oid) as [d0|] eqn:Hd0; simpl; [|congruence].
    destruct (isDeleted d0); simpl; [congruence|].
    destruct (notOwnerNorAdmin d0 user); simpl; [congruence|].
    destruct (negb _); simpl; [congruence|].
    rewrite lookup_insert_ne by congruence. congruence.
  - unfold grantCollaborator. destruct (negb _); simpl; [congruence|].
    destruct (castObjectId id0) as [oid|]; simpl; [|congruence].
    destruct (store !! oid) as [d0|] eqn:Hd0; simpl; [|congruence].
    destruct (isDeleted d0); simpl; [congruence|].
    destruct (notOwnerNorAdmin d0 user); simpl; [congruence|].
    destruct (findUserByEmail email); simpl; [|congruence].
    destruct (negb _); simpl; [congruence|].
    rewrite lookup_insert_ne by congruence. congruence.
  - unfold revokeCollaborator.
    destruct (castObjectId id0) as [oid|]; simpl; [|congruence].
    destruct (store !! oid) as [d0|] eqn:Hd0; simpl; [|congruence].
    destruct (isDeleted d0); simpl; [congruence|].
    destruct (notOwnerNorAdmin d0 user); simpl; [congruence|].
    destruct (negb _); simpl; [congruence|].
    rewrite lookup_insert_ne by congruence. congruence.
Qed.

Lemma apply_wellFormed store e :
  map_Forall (λ _ d, wellFormed unitCount d) store →
  map_Forall (λ _ d, wellFormed unitCount d)
    (apply castObjectId charCount unitCount findUserByMention findUserByEmail
       isEmail userExists store e).
Proof.
  intros Hs id d' Hd'. destruct (store !! id) as [d|] eqn:Hd.
  - pose proof (Hs id d Hd) as Hw.
    destruct (apply_cases castObjectId charCount unitCount findUserByMention
                findUserByEmail isEmail userExists store e id d Hd)
      as (d'' & Hd'' & [(r & -> & Hh)|(actor & target & -> & Hc)]);
      assert (d'' = d') as -> by congruence.
    + destruct (handle_cases castObjectId charCount unitCount
                  findUserByMention findUserByEmail isEmail
                  store r id d d' Hd Hh)
        as [->|(_ & Hsv & [(id0 & b & now & _ & _ & _ & _ & ->)
                    |(_ & [(id0 & now & _ & _ & ->)
                          |[(id0 & email & lvl & now & target & _ & _ & ->)
                           |(id0 & u & now & _ & _ & ->)]])])]; [done|..].
      * by apply updateHandler_wellFormed.
      * apply (wellFormed_frame d); try done. by destruct Hw.
      * apply (wellFormed_frame d); try done.
        apply addCollaborator_synced. by destruct Hw.
      * apply (wellFormed_frame d); try done.
        apply removeCollaborator_synced. by destruct Hw.
    + destruct Hc as [->|(uid & _ & ->)]; [done|].
      by apply afterUserDeletion_wellFormed.
  - destruct e as [r|actor target]; simpl in Hd'.
    + destruct (handle_new store r id d' Hd Hd')
        as (user & b & now & _ & Hsv & ->).
      by apply createHandler_wellFormed.
    + unfold deleteUser in Hd'.
      destruct (castObjectId target) as [uid|]; simpl in Hd'; [|congruence].
      destruct (negb (userExists uid)); simpl in Hd'; [congruence|].
      destruct (bool_decide (uid = user_id actor)); simpl in Hd';
        [congruence|].
      rewrite deleteUserCascade_lookup, Hd in Hd'. done.
Qed.

Lemma replay_wellFormed events :
  map_Forall (λ _ d, wellFormed unitCount d)
    (replay castObjectId charCount unitCount findUserByMention findUserByEmail
       isEmail userExists events).
Proof.
  unfold replay.
  assert (∀ store, map_Forall (λ _ d, wellFormed unitCount d) store →
            map_Forall (λ _ d, wellFormed unitCount d)
              (foldl (apply castObjectId charCount unitCount findUserByMention
                        findUserByEmail isEmail userExists) store events))
    as H.
  { induction events as [|e events IH]; simpl; intros store Hs; [done|].
    by apply IH, apply_wellFormed. }
  apply H, map_Forall_empty.
Qed.

(** X19. The collaborators mirror the permission entries also when
    users are deleted: after any sequence of requests and user deletions,
    [collaborators] and the users of [permissions] of every stored
    document are equal as sets and list nobody twice. *)
Theorem replay_synced (events : list Event) (id : DocId) (d : Document) :
  replay castObjectId charCount unitCount findUserByMention findUserByEmail isEmail userExists events !! id
    = Some d →
  NoDup (collaborators d) ∧ NoDup (permissionUsers d)
  ∧ ∀ u, u ∈ collaborators d ↔ u ∈ permissionUsers d.
Proof. intros Hd. by destruct (replay_wellFormed events id d Hd). Qed.

(** X20. The version history of every stored document is numbered 2, 3,
    ... without gap, [currentVersion] is the number of its last entry
    (one more than the number of entries), and that last entry holds the
    current title and content of the document. *)
Theorem replay_versioned (events : list Event) (id : DocId) (d : Document) :
  replay castObjectId charCount unitCount findUserByMention findUserByEmail isEmail userExists events !! id
    = Some d →
  versionNumber <$> versions d = seq 2 (length (versions d))
  ∧ currentVersion d = S (length (versions d))
  ∧ ∃ e, last (versions d) = Some e
         ∧ ver_title e = title d ∧ ver_content e = content d.
Proof. intros Hd. by destruct (replay_wellFormed events id d Hd) as (_ & ? & _). Qed.

(** X21. No stored document records a user twice in [mentions]. *)
Theorem replay_mentions_unique (events : list Event) (id : DocId)
    (d : Document) :
  replay castObjectId charCount unitCount findUserByMention findUserByEmail isEmail userExists events !! id
    = Some d →
  NoDup (mentionUsers d).
Proof. intros Hd. by destruct (replay_wellFormed events id d Hd) as (_ & _ & ? & _). Qed.

(** X22. What the routes store passes the validators of the schema,
    which every save runs and the deletion of a user does not disturb:
    every stored document has a title that is not empty and has at most
    200 UTF-16 code units, as [maxlength] counts them, and a content that
    is not empty; and every entry of its version history has a content
    and a title that are not empty. *)
Theorem replay_textValid (events : list Event) (id : DocId) (d : Document) :
  replay castObjectId charCount unitCount findUserByMention findUserByEmail
    isEmail userExists events !! id = Some d →
  title d ≠ EmptyString ∧ unitCount (title d) ≤ 200
  ∧ content d ≠ EmptyString
  ∧ ∀ v, v ∈ versions d →
         ver_content v ≠ EmptyString ∧ ver_title v ≠ EmptyString.
Proof.
  intros Hd. apply schemaValid_true.
  by destruct (replay_wellFormed events id d Hd) as (_ & _ & _ & ?).
Qed.

End Invariants.

(** ** Answers of the routes *)

Section RouteAnswers.

Variable castObjectId : string → option DocId.
Variable charCount : string → nat.
Variable unitCount : string → nat.
Variable findUserByMention : string → option UserId.
Variable findUserByEmail : string → option UserId.
Variable isEmail : string → bool.
Variable textSearch : string → Document → bool.


(** X24. The answers of [POST /:id/collaborators], in the order of its
    checks: an invalid email, an id that is not an ObjectId (an internal
    error), a missing or deleted document, a requester that is neither
    author nor admin, and only then an email that no user has; nothing is
    written in these cases. Otherwise the user of that email holds, in
    the document stored (one that passes the validators of the schema, as
    every document stored by the routes does) and in the permissions
    returned, an entry at the level asked, granted by the requester. *)
Theorem grantCollaborator_outcomes (store : gmap string Document)
    (user : AuthUser) (id : string) (email : string) (lvl : Level)
    (now : Date) :
  (isEmail email = false →
     grantCollaborator castObjectId unitCount findUserByEmail isEmail store
       user id email lvl now = (Err ValidationError, store))
  ∧ (isEmail email = true → castObjectId id = None →
     grantCollaborator castObjectId unitCount findUserByEmail isEmail store
       user id email lvl now = (Err InternalError, store))
  ∧ (∀ oid, isEmail email = true → castObjectId id = Some oid →
       store !! oid = None
       ∨ (∃ d, store !! oid = Some d ∧ isDeleted d = true) →
       grantCollaborator castObjectId unitCount findUserByEmail isEmail store
         user id email lvl now = (Err NotFound, store))
  ∧ (∀ oid d, isEmail email = true → castObjectId id = Some oid →
       store !! oid = Some d →
       isDeleted d = false → notOwnerNorAdmin d user = true →
       grantCollaborator castObjectId unitCount findUserByEmail isEmail store
         user id email lvl now = (Err Forbidden, store))
  ∧ (∀ oid d, isEmail email = true → castObjectId id = Some oid →
       store !! oid = Some d →
       isDeleted d = false → notOwnerNorAdmin d user = false →
       findUserByEmail email = None →
       grantCollaborator castObjectId unitCount findUserByEmail isEmail store
         user id email lvl now = (Err NotFound, store))
  ∧ (∀ oid d target, isEmail email = true → castObjectId id = Some oid →
       store !! oid = Some d →
       isDeleted d = false → notOwnerNorAdmin d user = false →
       findUserByEmail email = Some target →
       schemaValid unitCount d = true →
       ∃ d' i,
         grantCollaborator castObjectId unitCount findUserByEmail isEmail
           store user id email lvl now
           = (Ok (permissions d'), <[oid := d']> store)
         ∧ findPermission target (permissions d')
           = Some (i, mkPermission target lvl (user_id user) now)
         ∧ target ∈ collaborators d').
Proof.
  unfold grantCollaborator. split_and!.
  - by intros ->.
  - by intros -> ->.
  - intros oid -> -> [->|(d & -> & ->)]; done.
  - by intros oid d -> -> -> -> ->.
  - by intros oid d -> -> -> -> -> ->.
  - intros oid d target -> -> -> -> -> -> Hsv. simpl.
    change (schemaValid unitCount
              (addCollaborator target lvl (user_id user) now d))
      with (schemaValid unitCount d).
    rewrite Hsv. simpl.
    destruct (addCollaborator_entry target lvl (user_id user) now d) as [i Hi].
    exists (addCollaborator target lvl (user_id user) now d), i.
    split_and!; try done.
    rewrite addCollaborator_collaborators.
    apply snoc_unless_member_elem. by right.
Qed.

(** X25. A deleted document is invisible to the routes: its versions
    are reported not found, so is every write to it (nothing is written),
    and no listing or search matches it. *)
Theorem deleted_document_is_invisible (store : gmap string Document)
    (id0 : string) (id : DocId) (d : Document) (reader : option AuthUser)
    (user : AuthUser) (b : UpdateBody) (now : Date) (email : string)
    (lvl : Level) (u owner : UserId) (q : string) (search : option string)
    (st : option Status) (pf : option Privacy) :
  castObjectId id0 = Some id →
  store !! id = Some d → isDeleted d = true →
  getVersions castObjectId store user id0 = Err NotFound
  ∧ (validUpdate charCount b = true →
     updateDocument castObjectId charCount unitCount findUserByMention store user id0 b now
       = (Err NotFound, store))
  ∧ deleteDocument castObjectId unitCount store user id0 now = (Err NotFound, store)
  ∧ (isEmail email = true →
     grantCollaborator castObjectId unitCount findUserByEmail isEmail store user id0 email lvl now
       = (Err NotFound, store))
  ∧ revokeCollaborator castObjectId unitCount store user id0 u now = (Err NotFound, store)
  ∧ listQuery textSearch user st search d = false
  ∧ searchQuery textSearch reader q st pf d = false
  ∧ userDocumentsQuery user owner st d = false
  ∧ collaborationsQuery u d = false.
Proof.
  intros Hoid Hd Hdel.
  unfold getVersions, updateDocument, deleteDocument,
    grantCollaborator, revokeCollaborator, listQuery, searchQuery,
    userDocumentsQuery, collaborationsQuery.
  rewrite Hoid, Hd, Hdel. simpl. split_and!; try done.
  - by intros ->.
  - by intros ->.
  - by rewrite andb_false_r.
  - by rewrite andb_false_r.
Qed.

(** X26. A grant opens the document to its target: once
    [POST /:id/collaborators] has succeeded for the email of a user,
    [GET /:id/versions] answers that user, whatever it answered before,
    the user is listed the document, and may act at the levels up to the
    one granted. *)
Theorem grant_opens_document (store store' : gmap string Document)
    (owner reader : AuthUser) (id : string) (email : string) (lvl : Level)
    (now : Date) (ps : list Permission) :
  grantCollaborator castObjectId unitCount findUserByEmail isEmail store owner id email lvl now
    = (Ok ps, store') →
  findUserByEmail email = Some (user_id reader) →
  ∃ oid d d', castObjectId id = Some oid
    ∧ store !! oid = Some d ∧ store' !! oid = Some d'
    ∧ getVersions castObjectId store' reader id = Ok (versions d)
    ∧ listQuery textSearch reader None None d' = true
    ∧ ∀ r, permissionLevels r ≤ permissionLevels lvl →
           hasPermission d' (user_id reader) r = true.
Proof.
  unfold grantCollaborator. intros Hg Hf.
  destruct (negb (isEmail email)); [done|].
  destruct (castObjectId id) as [oid|] eqn:Hoid; [|done].
  destruct (store !! oid) as [d|] eqn:Hd; [|done].
  destruct (isDeleted d) eqn:Hdel; [done|].
  destruct (notOwnerNorAdmin d owner); [done|].
  rewrite Hf in Hg. destruct (negb _); [done|].
  simpl in Hg. injection Hg as <- <-.
  set (d' := addCollaborator (user_id reader) lvl (user_id owner) now d).
  assert (∀ r, permissionLevels r ≤ permissionLevels lvl →
               hasPermission d' (user_id reader) r = true) as Hp.
  { intros r Hr. by apply addCollaborator_allows. }
  assert (hasPermission d' (user_id reader) view = true) as Hv.
  { apply Hp. destruct lvl; simpl; lia. }
  exists oid, d, d'. rewrite lookup_insert_eq. split_and!; try done.
  - by apply (getVersions_Ok _ _ _ _ oid d'); [|apply lookup_insert_eq| |].
  - unfold listQuery. change (isDeleted d') with (isDeleted d).
    rewrite Hdel. simpl. rewrite !andb_true_r. by apply accessClause_view.
Qed.

(** X27. A revocation closes a private document to its target: once
    [DELETE /:id/collaborators/:userId] has succeeded for a user that is
    not the author, [GET /:id/versions] refuses that user, an update from
    that user is refused, and the document is no longer listed to that
    user. *)
Theorem revoke_closes_document (store store' : gmap string Document)
    (owner reader : AuthUser) (id0 : string) (id : DocId) (d : Document)
    (b : UpdateBody) (now now' : Date) :
  castObjectId id0 = Some id →
  store !! id = Some d → privacy d = private → user_id reader ≠ author d →
  revokeCollaborator castObjectId unitCount store owner id0 (user_id reader) now = (Ok (), store') →
  getVersions castObjectId store' reader id0 = Err Forbidden
  ∧ (validUpdate charCount b = true →
     updateDocument castObjectId charCount unitCount findUserByMention store' reader id0 b now'
       = (Err Forbidden, store'))
  ∧ ∀ st q, matching (listQuery textSearch reader st q) store' !! id = None.
Proof.
  unfold revokeCollaborator. intros Hoid Hd Hp Ha. rewrite Hoid, Hd.
  destruct (isDeleted d) eqn:Hdel; [done|].
  destruct (notOwnerNorAdmin d owner); [done|].
  destruct (negb _); [done|]. simpl. intros [= <-].
  assert (∀ r, hasPermission (removeCollaborator (user_id reader) d)
                 (user_id reader) r = false) as Hno.
  { intros r. by apply removeCollaborator_denies. }
  unfold getVersions, updateDocument.
  rewrite Hoid, lookup_insert_eq. simpl. rewrite Hdel, !Hno. simpl.
  split_and!; try done; [by intros ->|].
  intros st q.
  destruct (matching (listQuery textSearch reader st q)
              (<[id := removeCollaborator (user_id reader) d]> store) !! id)
    as [d0|] eqn:Hm; [|done].
  apply matching_lookup in Hm as [Hl Hq].
  rewrite lookup_insert_eq in Hl. injection Hl as <-.
  apply listQuery_readable in Hq as [_ Hv]. congruence.
Qed.

End RouteAnswers.

(** ** The further properties on the scenario *)

Lemma addCollaborator_grants_witness :
  hasPermission (addCollaborator "a11ce0000000000000000003" edit "aaaa00000000000000000001" 8 annDoc) "a11ce0000000000000000003" edit
    = true.
Proof.
  apply (proj2 (addCollaborator_grants annDoc "a11ce0000000000000000003" "aaaa00000000000000000001" edit edit 8)).
  right. right. simpl. lia.
Defined.

Lemma getVersions_spec_witness :
  getVersions castHex library bob "d0c000000000000000000001"
    = Ok (versions annDoc)
  ∧ getVersions castHex binned ann "d0c000000000000000000001" = Err NotFound
  ∧ getVersions castHex library ann "not-an-objectid" = Err InternalError.
Proof.
  split_and!.
  - apply (proj2 (proj1 (getVersions_spec castHex library bob
                           "d0c000000000000000000001") (versions annDoc))).
    exists "d0c000000000000000000001"%string, annDoc.
    split_and!; try reflexivity. right. right.
    apply (bool_decide_unpack _). vm_compute. exact I.
  - apply (proj2 (proj1 (proj2 (getVersions_spec castHex binned ann
                                  "d0c000000000000000000001")))).
    exists "d0c000000000000000000001"%string. split; [reflexivity|].
    right. exists (set_isDeleted true annDoc). split; reflexivity.
  - apply (proj2 (proj2 (proj2 (getVersions_spec castHex library ann
                                  "not-an-objectid")))).
    reflexivity.
Defined.

Lemma listed_iff_viewable_witness :
  matching (listQuery matchAll bob None None) library !! "d0c000000000000000000001"%string
    = Some annDoc
  ∧ getVersions castHex library bob "d0c000000000000000000001"
    = Ok (versions annDoc).
Proof.
  split.
  - apply (proj2 (proj1 (listed_iff_viewable castHex matchAll library bob
                           "d0c000000000000000000001" annDoc))).
    split; [reflexivity|]. split; reflexivity.
  - apply (proj2 (listed_iff_viewable castHex matchAll library bob
                    "d0c000000000000000000001" annDoc)
             (Some draft) (Some "old"%string) "d0c000000000000000000001").
    + reflexivity.
    + vm_compute. reflexivity.
Defined.

Lemma search_results_viewable_witness :
  library !! "d0c000000000000000000001"%string = Some annDoc ∧ isDeleted annDoc = false
  ∧ hasPermission annDoc (user_id bob) view = true.
Proof.
  apply (search_results_viewable matchAll library (Some bob) "old"
           (Some draft) (Some private) "d0c000000000000000000001" annDoc).
  vm_compute. reflexivity.
Defined.

Lemma userDocuments_viewable_witness :
  author annDoc = "aaaa00000000000000000001"%string ∧ isDeleted annDoc = false
  ∧ (role ann ≠ role_admin →
     hasPermission annDoc (user_id ann) view = true
     ∧ ("aaaa00000000000000000001"%string ≠ user_id ann → privacy annDoc = public)).
Proof.
  apply (userDocuments_viewable library ann "aaaa00000000000000000001" None "d0c000000000000000000001" annDoc).
  vm_compute. reflexivity.
Defined.

Lemma documents_persist_witness :
  ∃ d', apply castHex utf8Chars utf16Units directory byEmail anyEmail knownUser library
          (UserDeletion root "bbbb00000000000000000002") !! "d0c000000000000000000001"%string = Some d'
        ∧ author d' = author annDoc.
Proof.
  apply (documents_persist castHex utf8Chars utf16Units directory byEmail
           anyEmail knownUser library
           (UserDeletion root "bbbb00000000000000000002") "d0c000000000000000000001" annDoc).
  reflexivity.
Defined.

Lemma histories_append_only_witness :
  ∃ d', apply castHex utf8Chars utf16Units directory byEmail anyEmail knownUser library
          (DocumentRequest (ReqUpdate ann "d0c000000000000000000001" pingBob 9))
          !! "d0c000000000000000000001"%string = Some d'
        ∧ versions annDoc `prefix_of` versions d'
        ∧ mentions annDoc `prefix_of` mentions d'.
Proof.
  eexists. split; [vm_compute; reflexivity|].
  apply (histories_append_only castHex utf8Chars utf16Units directory byEmail
           anyEmail knownUser library
           (DocumentRequest (ReqUpdate ann "d0c000000000000000000001" pingBob 9)) "d0c000000000000000000001" annDoc).
  - reflexivity.
  - vm_compute. reflexivity.
Defined.

Lemma deleted_stays_deleted_witness :
  isDeleted (set_isDeleted true annDoc) = true
  ∧ ∀ r, DocumentRequest (ReqUpdate ann "d0c000000000000000000001" retitle 9) = DocumentRequest r →
         set_isDeleted true annDoc = set_isDeleted true annDoc.
Proof.
  apply (deleted_stays_deleted castHex utf8Chars utf16Units directory byEmail
           anyEmail knownUser binned
           (DocumentRequest (ReqUpdate ann "d0c000000000000000000001" retitle 9)) "d0c000000000000000000001"
           (set_isDeleted true annDoc) (set_isDeleted true annDoc)).
  - reflexivity.
  - reflexivity.
  - vm_compute. reflexivity.
Defined.

Lemma unauthorized_request_changes_nothing_witness :
  handle castHex utf8Chars utf16Units directory byEmail anyEmail library (ReqUpdate alice "d0c000000000000000000001" retitle 9)
    !! "d0c000000000000000000001"%string = Some annDoc.
Proof.
  apply (unauthorized_request_changes_nothing castHex utf8Chars utf16Units directory byEmail
           anyEmail
           library (ReqUpdate alice "d0c000000000000000000001" retitle 9) "d0c000000000000000000001" annDoc).
  - reflexivity.
  - reflexivity.
  - apply (bool_decide_unpack _). vm_compute. exact I.
Defined.

Lemma only_owner_or_admin_manages_witness :
  handle castHex utf8Chars utf16Units directory byEmail anyEmail library (ReqDelete bob "d0c000000000000000000001" 9)
    !! "d0c000000000000000000001"%string = Some annDoc.
Proof.
  apply (only_owner_or_admin_manages castHex utf8Chars utf16Units directory byEmail
           anyEmail library
           (ReqDelete bob "d0c000000000000000000001" 9) "d0c000000000000000000001" annDoc).
  - reflexivity.
  - reflexivity.
  - intros id0 b now. discriminate.
Defined.

Lemma replay_synced_witness :
  ∃ d, replay castHex utf8Chars utf16Units directory byEmail anyEmail knownUser timeline !! "d0c000000000000000000001"%string
         = Some d
       ∧ collaborators d = ["bbbb00000000000000000002"%string]
       ∧ NoDup (collaborators d) ∧ NoDup (permissionUsers d)
       ∧ ∀ u, u ∈ collaborators d ↔ u ∈ permissionUsers d.
Proof.
  eexists. split; [vm_compute; reflexivity|]. split; [reflexivity|].
  apply (replay_synced castHex utf8Chars utf16Units directory byEmail
           anyEmail knownUser timeline "d0c000000000000000000001").
  vm_compute. reflexivity.
Defined.

Lemma replay_versioned_witness :
  ∃ d, replay castHex utf8Chars utf16Units directory byEmail anyEmail knownUser timeline !! "d0c000000000000000000001"%string
         = Some d
       ∧ versionNumber <$> versions d = seq 2 (length (versions d))
       ∧ currentVersion d = S (length (versions d))
       ∧ ∃ e, last (versions d) = Some e
              ∧ ver_title e = title d ∧ ver_content e = content d.
Proof.
  eexists. split; [vm_compute; reflexivity|].
  apply (replay_versioned castHex utf8Chars utf16Units directory byEmail
           anyEmail knownUser timeline
           "d0c000000000000000000001").
  vm_compute. reflexivity.
Defined.

Lemma replay_mentions_unique_witness :
  ∃ d, replay castHex utf8Chars utf16Units directory byEmail anyEmail knownUser timeline !! "d0c000000000000000000001"%string
         = Some d
       ∧ mentionUsers d = ["a11ce0000000000000000003"; "bbbb00000000000000000002"]%string
       ∧ NoDup (mentionUsers d).
Proof.
  eexists. split; [vm_compute; reflexivity|]. split; [reflexivity|].
  apply (replay_mentions_unique castHex utf8Chars utf16Units directory byEmail
           anyEmail knownUser timeline
           "d0c000000000000000000001").
  vm_compute. reflexivity.
Defined.

Lemma replay_textValid_witness :
  ∃ d, replay castHex utf8Chars utf16Units directory byEmail anyEmail knownUser
         timeline !! "d0c000000000000000000001"%string = Some d
       ∧ title d = "New title"%string
       ∧ title d ≠ EmptyString ∧ utf16Units (title d) ≤ 200
       ∧ content d ≠ EmptyString
       ∧ ∀ v, v ∈ versions d →
              ver_content v ≠ EmptyString ∧ ver_title v ≠ EmptyString.
Proof.
  eexists. split; [vm_compute; reflexivity|]. split; [reflexivity|].
  apply (replay_textValid castHex utf8Chars utf16Units directory byEmail
           anyEmail knownUser timeline "d0c000000000000000000001").
  vm_compute. reflexivity.
Defined.


Lemma grantCollaborator_outcomes_witness :
  grantCollaborator castHex utf16Units byEmail anyEmail library ann
    "d0c000000000000000000001" "nobody@example.org" view 9
    = (Err NotFound, library)
  ∧ grantCollaborator castHex utf16Units byEmail anyEmail library ann
      "not-an-objectid" "bob@example.org" view 9
    = (Err InternalError, library)
  ∧ ∃ d' i,
      grantCollaborator castHex utf16Units byEmail anyEmail library ann
        "d0c000000000000000000001" "bob@example.org" admin 9
        = (Ok (permissions d'), <["d0c000000000000000000001"%string := d']> library)
      ∧ findPermission "bbbb00000000000000000002" (permissions d')
        = Some (i, mkPermission "bbbb00000000000000000002" admin
                     "aaaa00000000000000000001" 9)
      ∧ "bbbb00000000000000000002"%string ∈ collaborators d'.
Proof.
  split_and!.
  - apply (proj1 (proj2 (proj2 (proj2 (proj2
             (grantCollaborator_outcomes castHex utf16Units byEmail anyEmail
                library ann "d0c000000000000000000001" "nobody@example.org"
                view 9)))))
             "d0c000000000000000000001" annDoc); reflexivity.
  - apply (proj1 (proj2
             (grantCollaborator_outcomes castHex utf16Units byEmail anyEmail
                library ann "not-an-objectid" "bob@example.org" view 9)));
      reflexivity.
  - apply (proj2 (proj2 (proj2 (proj2 (proj2
             (grantCollaborator_outcomes castHex utf16Units byEmail anyEmail
                library ann "d0c000000000000000000001" "bob@example.org"
                admin 9)))))
             "d0c000000000000000000001" annDoc "bbbb00000000000000000002");
      reflexivity.
Defined.

Lemma deleted_document_is_invisible_witness :
  getVersions castHex binned ann "d0c000000000000000000001" = Err NotFound
  ∧ (validUpdate utf8Chars retitle = true →
     updateDocument castHex utf8Chars utf16Units directory binned ann "d0c000000000000000000001" retitle 9
       = (Err NotFound, binned))
  ∧ deleteDocument castHex utf16Units binned ann "d0c000000000000000000001" 9 = (Err NotFound, binned)
  ∧ (anyEmail "bob@example.org" = true →
     grantCollaborator castHex utf16Units byEmail anyEmail binned ann "d0c000000000000000000001" "bob@example.org"
       view 9 = (Err NotFound, binned))
  ∧ revokeCollaborator castHex utf16Units binned ann "d0c000000000000000000001" "bbbb00000000000000000002" 9 = (Err NotFound, binned)
  ∧ listQuery matchAll ann None None (set_isDeleted true annDoc) = false
  ∧ searchQuery matchAll (Some ann) "old" None None (set_isDeleted true annDoc)
    = false
  ∧ userDocumentsQuery ann "aaaa00000000000000000001" None (set_isDeleted true annDoc) = false
  ∧ collaborationsQuery "bbbb00000000000000000002" (set_isDeleted true annDoc) = false.
Proof.
  apply (deleted_document_is_invisible castHex utf8Chars utf16Units directory
           byEmail anyEmail matchAll binned "d0c000000000000000000001"
           "d0c000000000000000000001" (set_isDeleted true annDoc) (Some ann)
           ann retitle 9 "bob@example.org" view "bbbb00000000000000000002"
           "aaaa00000000000000000001" "old" None None None);
    reflexivity.
Defined.

Lemma grant_opens_document_witness :
  getVersions castHex library alice "d0c000000000000000000001" = Err Forbidden
  ∧ ∃ oid d d', castHex "d0c000000000000000000001" = Some oid
      ∧ library !! oid = Some d
      ∧ (grantCollaborator castHex utf16Units
           (λ _, Some "a11ce0000000000000000003"%string) anyEmail library ann
           "d0c000000000000000000001" "alice@example.org" view 9).2 !! oid
        = Some d'
      ∧ getVersions castHex
          (grantCollaborator castHex utf16Units
             (λ _, Some "a11ce0000000000000000003"%string) anyEmail library ann
             "d0c000000000000000000001" "alice@example.org" view 9).2 alice
          "d0c000000000000000000001"
        = Ok (versions d)
      ∧ listQuery matchAll alice None None d' = true
      ∧ ∀ r, permissionLevels r ≤ permissionLevels view →
             hasPermission d' (user_id alice) r = true.
Proof.
  split; [reflexivity|].
  eapply (grant_opens_document castHex utf16Units
            (λ _, Some "a11ce0000000000000000003"%string) anyEmail matchAll
            library _ ann alice "d0c000000000000000000001" "alice@example.org"
            view 9 _).
  - vm_compute. reflexivity.
  - reflexivity.
Defined.

Lemma revoke_closes_document_witness :
  getVersions castHex (revokeCollaborator castHex utf16Units library ann "d0c000000000000000000001" "bbbb00000000000000000002" 9).2 bob "d0c000000000000000000001"
    = Err Forbidden
  ∧ (validUpdate utf8Chars retitle = true →
     updateDocument castHex utf8Chars utf16Units directory
       (revokeCollaborator castHex utf16Units library ann "d0c000000000000000000001" "bbbb00000000000000000002" 9).2 bob "d0c000000000000000000001"
       retitle 10
     = (Err Forbidden, (revokeCollaborator castHex utf16Units library ann "d0c000000000000000000001" "bbbb00000000000000000002" 9).2))
  ∧ ∀ st q, matching (listQuery matchAll bob st q)
              (revokeCollaborator castHex utf16Units library ann "d0c000000000000000000001" "bbbb00000000000000000002" 9).2
              !! "d0c000000000000000000001"%string = None.
Proof.
  apply (revoke_closes_document castHex utf8Chars utf16Units directory matchAll
           library
           (revokeCollaborator castHex utf16Units library ann "d0c000000000000000000001" "bbbb00000000000000000002" 9).2 ann bob "d0c000000000000000000001"
           "d0c000000000000000000001" annDoc retitle 9 10).
  - reflexivity.
  - reflexivity.
  - reflexivity.
  - apply (bool_decide_unpack _). vm_compute. exact I.
  - vm_compute. reflexivity.
Defined.
